(** * AnalysisAgent: the anomaly contract layer

    A shallow embedding of [main.py] (the [analyze_anomaly] HTTP handler) and
    of [src/models/anomaly.py] (the [Anomaly] / [AnomalyAnalysis] dataclasses,
    their [to_dict] methods and the BigQuery schema descriptor), followed by
    the properties of the contract layer.

    Layout:
    - [Py]: the Python values the handler manipulates, exceptions, the
      error monad, and the behaviour of the operators and builtins the code
      calls ([in], subscription, [dict.get], [str.replace], [float], ...);
    - [Models]: [src/models/anomaly.py];
    - [Main]: [main.py];
    - [Fixture]: an instance of the interpreter-provided functions that
      covers the inputs of the examples, and the literal request of the
      specification;
    - the theorems. *)

From Stdlib Require Import PrimFloat SpecFloat FloatOps.
From Stdlib Require Import ZArith List Bool Ascii String Lia.
Import ListNotations.
Local Open Scope string_scope.
Set Warnings "-inexact-float,-register-all".

(* ================================================================= *)
(** ** Python values, exceptions and builtins *)

Module Py.

(** [datetime.datetime]: the calendar fields and the fixed UTC offset (in
    microseconds) of an aware value; [None] for a naive one. *)
Record datetime : Type := mk_datetime {
  year : Z; month : Z; day : Z;
  hour : Z; minute : Z; second : Z; microsecond : Z;
  utcoffset : option Z
}.

(** The objects that flow through the handler: what [json] parsing yields
    (None, bool, int, float, str, list, dict with string keys, in insertion
    order) and [datetime] objects, which the dataclass annotations allow in
    [time_window]. *)
Inductive value : Type :=
| VNone
| VBool (b : bool)
| VInt (z : Z)
| VFloat (f : float)
| VStr (s : string)
| VList (l : list value)
| VDict (d : list (string * value))
| VDatetime (t : datetime).

(** [type(v).__name__] as it appears in interpreter error messages. *)
Definition type_name (v : value) : string :=
  match v with
  | VNone => "NoneType"
  | VBool _ => "bool"
  | VInt _ => "int"
  | VFloat _ => "float"
  | VStr _ => "str"
  | VList _ => "list"
  | VDict _ => "dict"
  | VDatetime _ => "datetime.datetime"
  end.

(** An exception instance of a subclass of [Exception], reduced to what the
    handler observes: [type(e).__name__], whether [except ValueError] catches
    it, and [str(e)]. The classes that derive from [BaseException] only
    ([SystemExit], [KeyboardInterrupt], [GeneratorExit]) are not represented:
    no [except] clause of the handlers catches them and no response is
    returned for them, so every statement below is about exceptions that
    [except Exception] catches. *)
Record exn : Type := mk_exn {
  exn_type : string;
  isinstance_ValueError : bool;
  exn_str : string
}.

Definition ValueError (msg : string) : exn := mk_exn "ValueError" true msg.
Definition TypeError (msg : string) : exn := mk_exn "TypeError" false msg.
Definition AttributeError (msg : string) : exn := mk_exn "AttributeError" false msg.
Definition KeyError (msg : string) : exn := mk_exn "KeyError" false msg.
Definition OverflowError (msg : string) : exn := mk_exn "OverflowError" false msg.

(** Outcome of evaluating an expression: a value or a raised exception. *)
Inductive result (A : Type) : Type :=
| Ok (a : A)
| Raise (e : exn).
Arguments Ok {A} a.
Arguments Raise {A} e.

Definition bind {A B : Type} (r : result A) (k : A -> result B) : result B :=
  match r with
  | Ok a => k a
  | Raise e => Raise e
  end.

Notation "x <- e ;; k" := (bind e (fun x => k))
  (at level 61, e at next level, right associativity).

(** Monadic traversal, left to right, stopping at the first exception (a list
    or dict comprehension). *)
Fixpoint mapM {A B : Type} (f : A -> result B) (xs : list A) : result (list B) :=
  match xs with
  | [] => Ok []
  | x :: xs' => y <- f x ;; ys <- mapM f xs' ;; Ok (y :: ys)
  end.

(** [[x for x in xs if p(x)]] where the condition may raise. *)
Fixpoint filterM {A : Type} (p : A -> result bool) (xs : list A) : result (list A) :=
  match xs with
  | [] => Ok []
  | x :: xs' =>
      b <- p x ;; ys <- filterM p xs' ;; Ok (if b then x :: ys else ys)
  end.

(** What the interpreter and its standard library provide and the
    repository's code calls without defining. *)
Class Builtins : Type := {
  (** [repr(v)], used by the interpreter's error messages *)
  repr : value -> string;
  (** [float(s)] on a [str]: the parsed number, or [None] when the text is
      not a floating-point literal *)
  float_of_str : string -> option float;
  (** [datetime.fromisoformat(s)] on a [str]: the parsed value, or the
      message of the [ValueError] it raises *)
  fromisoformat : string -> datetime + string;
  (** [datetime.isoformat()] *)
  isoformat : datetime -> string
}.

(** *** Truth value testing *)

Definition truthy (v : value) : bool :=
  match v with
  | VNone => false
  | VBool b => b
  | VInt z => negb (z =? 0)%Z
  | VFloat f => negb (PrimFloat.eqb f 0%float)
  | VStr s => negb (String.eqb s "")
  | VList l => match l with [] => false | _ => true end
  | VDict d => match d with [] => false | _ => true end
  | VDatetime _ => true
  end.

(** *** Strings *)

(** [sub in s] on two [str]. *)
Fixpoint str_in (sub s : string) : bool :=
  String.prefix sub s ||
  match s with
  | EmptyString => false
  | String _ s' => str_in sub s'
  end.

(** [s.replace(old, new)] for a one-character [old]. *)
Fixpoint str_replace1 (old : ascii) (new s : string) : string :=
  match s with
  | EmptyString => EmptyString
  | String c s' =>
      if Ascii.eqb c old then new ++ str_replace1 old new s'
      else String c (str_replace1 old new s')
  end.

Definition no_attribute (v : value) (attr : string) : exn :=
  AttributeError ("'" ++ type_name v ++ "' object has no attribute '" ++ attr ++ "'").

(** [v.replace('Z', '+00:00')]: a [str] method; [datetime] has a [replace]
    of its own that rejects string arguments; nothing else has the
    attribute. *)
Definition replace_Z (v : value) : result string :=
  match v with
  | VStr s => Ok (str_replace1 "Z"%char "+00:00" s)
  | VDatetime _ => Raise (TypeError "'str' object cannot be interpreted as an integer")
  | _ => Raise (no_attribute v "replace")
  end.

(** *** Dictionaries and containers *)

Fixpoint dict_lookup (k : string) (d : list (string * value)) : option value :=
  match d with
  | [] => None
  | (k', v) :: d' => if String.eqb k k' then Some v else dict_lookup k d'
  end.

Definition dict_has (d : list (string * value)) (k : string) : bool :=
  match dict_lookup k d with Some _ => true | None => false end.

(** [d[k] = v]: overwrite in place, or append a new key. *)
Fixpoint dict_set (k : string) (v : value) (d : list (string * value))
  : list (string * value) :=
  match d with
  | [] => [(k, v)]
  | (k', v') :: d' =>
      if String.eqb k k' then (k, v) :: d' else (k', v') :: dict_set k v d'
  end.

(** [x == k] for a string [k]: only an equal [str] compares equal. *)
Definition eq_str (x : value) (k : string) : bool :=
  match x with
  | VStr s => String.eqb s k
  | _ => false
  end.

(** [k in container] for a string [k]. *)
Definition contains (container : value) (k : string) : result bool :=
  match container with
  | VDict d => Ok (dict_has d k)
  | VList l => Ok (existsb (fun x => eq_str x k) l)
  | VStr s => Ok (str_in k s)
  | _ => Raise (TypeError ("argument of type '" ++ type_name container ++ "' is not iterable"))
  end.

Section WithBuiltins.
Context {B : Builtins}.

(** [container[k]] for a string [k]. *)
Definition getitem (container : value) (k : string) : result value :=
  match container with
  | VDict d =>
      match dict_lookup k d with
      | Some v => Ok v
      | None => Raise (KeyError (repr (VStr k)))
      end
  | VList _ => Raise (TypeError "list indices must be integers or slices, not str")
  | VStr _ => Raise (TypeError "string indices must be integers, not 'str'")
  | _ => Raise (TypeError ("'" ++ type_name container ++ "' object is not subscriptable"))
  end.

(** [container.get(k, default)]. *)
Definition get (container : value) (k : string) (default : value) : result value :=
  match container with
  | VDict d =>
      match dict_lookup k d with
      | Some v => Ok v
      | None => Ok default
      end
  | _ => Raise (no_attribute container "get")
  end.

(** *** Numbers *)

(** [float(n)] on an [int]: round to nearest even binary64; magnitudes that
    round beyond the largest finite double raise [OverflowError]. *)
Definition float_of_int (z : Z) : result float :=
  match binary_normalize 53 1024 z 0 false with
  | S754_infinity _ => Raise (OverflowError "int too large to convert to float")
  | sf => Ok (SF2Prim sf)
  end.

(** The builtin [float(v)]. *)
Definition float_ (v : value) : result float :=
  match v with
  | VFloat f => Ok f
  | VInt z => float_of_int z
  | VBool b => Ok (if b then 1%float else 0%float)
  | VStr s =>
      match float_of_str s with
      | Some f => Ok f
      | None => Raise (ValueError ("could not convert string to float: " ++ repr v))
      end
  | _ =>
      Raise (TypeError ("float() argument must be a string or a real number, not '"
                        ++ type_name v ++ "'"))
  end.

(** *** Dates *)

(** [datetime.fromisoformat(s)]. *)
Definition datetime_fromisoformat (s : string) : result datetime :=
  match fromisoformat s with
  | inl t => Ok t
  | inr msg => Raise (ValueError msg)
  end.

(** [v.isoformat()]. *)
Definition call_isoformat (v : value) : result string :=
  match v with
  | VDatetime t => Ok (isoformat t)
  | _ => Raise (no_attribute v "isoformat")
  end.

(** [v.items()]. *)
Definition items (v : value) : result (list (string * value)) :=
  match v with
  | VDict d => Ok d
  | _ => Raise (no_attribute v "items")
  end.

End WithBuiltins.

(** *** JSON output *)

(** Whether [json.dumps] accepts the object: everything but [datetime]. *)
Fixpoint json_serializable (v : value) : bool :=
  match v with
  | VDatetime _ => false
  | VList l => forallb json_serializable l
  | VDict d => forallb (fun kv => json_serializable (snd kv)) d
  | _ => true
  end.

End Py.

(* ================================================================= *)
(** ** [src/models/anomaly.py] *)

Module Models.
Import Py.

(** [class AnomalyType(Enum)] *)
Inductive AnomalyType : Type := STABILITY | PERFORMANCE | COST | RESOURCE | UNKNOWN.

(** [class Severity(Enum)] *)
Inductive Severity : Type := CRITICAL | HIGH | MEDIUM | LOW | INFO.

(** [member.value] *)
Definition AnomalyType_value (m : AnomalyType) : string :=
  match m with
  | STABILITY => "stability"
  | PERFORMANCE => "performance"
  | COST => "cost"
  | RESOURCE => "resource"
  | UNKNOWN => "unknown"
  end.

Definition Severity_value (m : Severity) : string :=
  match m with
  | CRITICAL => "critical"
  | HIGH => "high"
  | MEDIUM => "medium"
  | LOW => "low"
  | INFO => "info"
  end.

(** The members in definition order ([list(AnomalyType)]). *)
Definition AnomalyType_members : list AnomalyType :=
  [STABILITY; PERFORMANCE; COST; RESOURCE; UNKNOWN].

Definition Severity_members : list Severity :=
  [CRITICAL; HIGH; MEDIUM; LOW; INFO].

Section WithBuiltins.
Context {B : Builtins}.

(** Calling an [Enum] class on a value: the member with that value, or
    [ValueError("<repr> is not a valid <class>")]. *)
Definition Enum_call {E : Type} (members : list E) (value_of : E -> string)
    (qualname : string) (v : value) : result E :=
  match find (fun m => eq_str v (value_of m)) members with
  | Some m => Ok m
  | None => Raise (ValueError (repr v ++ " is not a valid " ++ qualname))
  end.

Definition AnomalyType_call : value -> result AnomalyType :=
  Enum_call AnomalyType_members AnomalyType_value "AnomalyType".

Definition Severity_call : value -> result Severity :=
  Enum_call Severity_members Severity_value "Severity".

End WithBuiltins.

(** Annotations of the dataclass fields. *)
Inductive annotation : Type :=
| Tstr
| Tdatetime
| Tfloat
| TAnomalyType
| TSeverity
| TList
| TDict.

(** [@dataclass class Anomaly] *)
Module Anomaly.

Record t : Type := mk {
  anomaly_id : value;
  detected_at : datetime;
  metric_name : value;
  metric_type : value;
  current_value : float;
  baseline_value : float;
  deviation_sigma : float;
  deviation_percentage : float;
  anomaly_type : AnomalyType;
  severity : Severity;
  confidence : value;
  affected_resources : value;
  time_window : value;
  related_metrics : value;
  metadata : value
}.

(** The declared fields, in order, with their annotations. *)
Definition fields : list (string * annotation) :=
  [ ("anomaly_id", Tstr); ("detected_at", Tdatetime);
    ("metric_name", Tstr); ("metric_type", Tstr);
    ("current_value", Tfloat); ("baseline_value", Tfloat);
    ("deviation_sigma", Tfloat); ("deviation_percentage", Tfloat);
    ("anomaly_type", TAnomalyType); ("severity", TSeverity);
    ("confidence", Tfloat);
    ("affected_resources", TList); ("time_window", TDict);
    ("related_metrics", TDict);
    ("metadata", TDict) ].

Section WithBuiltins.
Context {B : Builtins}.

(** [{k: v.isoformat() for k, v in self.time_window.items()}] *)
Definition time_window_to_dict (tw : value) : result value :=
  kvs <- items tw ;;
  out <- mapM (fun kv => s <- call_isoformat (snd kv) ;; Ok (fst kv, VStr s)) kvs ;;
  Ok (VDict (fold_left (fun acc kv => dict_set (fst kv) (snd kv) acc) out [])).

Definition to_dict (self : t) : result value :=
  tw <- time_window_to_dict (time_window self) ;;
  Ok (VDict
    [ ("anomaly_id", anomaly_id self);
      ("detected_at", VStr (isoformat (detected_at self)));
      ("metric_name", metric_name self);
      ("metric_type", metric_type self);
      ("current_value", VFloat (current_value self));
      ("baseline_value", VFloat (baseline_value self));
      ("deviation_sigma", VFloat (deviation_sigma self));
      ("deviation_percentage", VFloat (deviation_percentage self));
      ("anomaly_type", VStr (AnomalyType_value (anomaly_type self)));
      ("severity", VStr (Severity_value (severity self)));
      ("confidence", confidence self);
      ("affected_resources", affected_resources self);
      ("time_window", tw);
      ("related_metrics", related_metrics self);
      ("metadata", metadata self) ]).

End WithBuiltins.
End Anomaly.

(** [@dataclass class RootCause] *)
Module RootCause.
Record t : Type := mk {
  primary_cause : string;
  contributing_factors : list string;
  confidence : float;
  evidence : list string;
  correlation_data : value
}.
End RootCause.

(** [@dataclass class Recommendation] *)
Module Recommendation.
Record t : Type := mk {
  priority : string;
  action : string;
  rationale : string;
  expected_impact : string;
  implementation_steps : list string;
  estimated_effort : string;
  risk_level : string;
  cost_impact : option string
}.
End Recommendation.

(** [@dataclass class HumanReadableSummary] *)
Module HumanReadableSummary.
Record t : Type := mk {
  what_happened : string;
  why_it_happened : string;
  what_is_the_impact : string;
  what_improvements_can_be_made : string;
  estimated_benefit_if_implemented : string
}.

(** The five-key mapping both serializers build from a summary. *)
Definition as_dict (s : t) : value :=
  VDict
    [ ("what_happened", VStr (what_happened s));
      ("why_it_happened", VStr (why_it_happened s));
      ("what_is_the_impact", VStr (what_is_the_impact s));
      ("what_improvements_can_be_made", VStr (what_improvements_can_be_made s));
      ("estimated_benefit_if_implemented", VStr (estimated_benefit_if_implemented s)) ].
End HumanReadableSummary.

Definition strs (l : list string) : value := VList (map VStr l).

(** [@dataclass class AnomalyAnalysis] *)
Module AnomalyAnalysis.

Record t : Type := mk {
  anomaly : Anomaly.t;
  root_cause : RootCause.t;
  recommendations : list Recommendation.t;
  analyzed_at : datetime;
  analysis_duration_ms : Z;
  ai_model_used : string;
  historical_context : string;
  trend_analysis : string;
  predicted_impact : string;
  summary : option HumanReadableSummary.t
}.

(** [if self.summary:] on [Optional[HumanReadableSummary]]: [None] is false,
    and a dataclass instance, which defines neither [__bool__] nor
    [__len__], is true whatever its fields hold. *)
Definition summary_truthy (s : option HumanReadableSummary.t) : bool :=
  match s with
  | None => false
  | Some _ => true
  end.

Section WithBuiltins.
Context {B : Builtins}.

Definition to_dict (self : t) : result value :=
  anomaly_dict <- Anomaly.to_dict (anomaly self) ;;
  let result :=
    [ ("anomaly", anomaly_dict);
      ("root_cause", VDict
         [ ("primary_cause", VStr (RootCause.primary_cause (root_cause self)));
           ("contributing_factors", strs (RootCause.contributing_factors (root_cause self)));
           ("confidence", VFloat (RootCause.confidence (root_cause self)));
           ("evidence", strs (RootCause.evidence (root_cause self)));
           ("correlation_data", RootCause.correlation_data (root_cause self)) ]);
      ("recommendations", VList (map (fun rec => VDict
         [ ("priority", VStr (Recommendation.priority rec));
           ("action", VStr (Recommendation.action rec));
           ("rationale", VStr (Recommendation.rationale rec));
           ("expected_impact", VStr (Recommendation.expected_impact rec));
           ("implementation_steps", strs (Recommendation.implementation_steps rec));
           ("estimated_effort", VStr (Recommendation.estimated_effort rec));
           ("risk_level", VStr (Recommendation.risk_level rec));
           ("cost_impact", match Recommendation.cost_impact rec with
                           | Some c => VStr c
                           | None => VNone
                           end) ])
         (recommendations self)));
      ("analyzed_at", VStr (isoformat (analyzed_at self)));
      ("analysis_duration_ms", VInt (analysis_duration_ms self));
      ("ai_model_used", VStr (ai_model_used self));
      ("historical_context", VStr (historical_context self));
      ("trend_analysis", VStr (trend_analysis self));
      ("predicted_impact", VStr (predicted_impact self)) ] in
  Ok (VDict
    (if summary_truthy (summary self)
     then match summary self with
          | Some s => dict_set "summary" (HumanReadableSummary.as_dict s) result
          | None => result
          end
     else result)).

End WithBuiltins.
End AnomalyAnalysis.

(** One entry of a BigQuery schema list. *)
Record column : Type := mk_column {
  name : string;
  field_type : string;
  mode : string
}.

Definition ANOMALY_TABLE_SCHEMA : list column :=
  [ mk_column "anomaly_id" "STRING" "REQUIRED";
    mk_column "detected_at" "TIMESTAMP" "REQUIRED";
    mk_column "metric_name" "STRING" "REQUIRED";
    mk_column "metric_type" "STRING" "REQUIRED";
    mk_column "current_value" "FLOAT" "REQUIRED";
    mk_column "baseline_value" "FLOAT" "REQUIRED";
    mk_column "deviation_sigma" "FLOAT" "REQUIRED";
    mk_column "deviation_percentage" "FLOAT" "REQUIRED";
    mk_column "anomaly_type" "STRING" "REQUIRED";
    mk_column "severity" "STRING" "REQUIRED";
    mk_column "confidence" "FLOAT" "REQUIRED";
    mk_column "affected_resources" "JSON" "NULLABLE";
    mk_column "related_metrics" "JSON" "NULLABLE";
    mk_column "metadata" "JSON" "NULLABLE" ].

End Models.

(* ================================================================= *)
(** ** [main.py] *)

Module Main.
Import Py Models.

(** The part of the HTTP request the handler reads: [request.method] and
    [request.get_json(silent=True)], which is [None] when the body is absent
    or is not JSON. *)
Record Request : Type := mk_request {
  method : string;
  get_json : value
}.

(** First component of the returned tuple: a literal text, or
    [json.dumps(v)]. *)
Inductive payload : Type :=
| Text (s : string)
| Dumps (v : value).

(** The returned tuple [(body, status, headers)]. *)
Record Response : Type := mk_response {
  body : payload;
  status : Z;
  headers : list (string * string)
}.

(** The collaborators imported from [src.utils.config] and
    [src.agent.anomaly_analyzer]: each may return or raise. *)
Record Collaborators : Type := mk_collaborators {
  Config : Type;
  Agent : Type;
  get_config : result Config;
  AnomalyAnalyzerAgent : Config -> result Agent;
  Agent_analyze_anomaly : Agent -> Anomaly.t -> result AnomalyAnalysis.t
}.

(** Calls made to the collaborators, in order. *)
Inductive call : Type :=
| Call_get_config
| Call_AnomalyAnalyzerAgent
| Call_analyze_anomaly (anomaly : Anomaly.t).

(** Computations of the handler: the calls performed so far and the
    outcome. *)
Definition eff (A : Type) : Type := (list call * result A)%type.

Definition lift {A : Type} (r : result A) : eff A := ([], r).

Definition perform {A : Type} (c : call) (r : result A) : eff A := ([c], r).

Definition eff_bind {A B : Type} (m : eff A) (k : A -> eff B) : eff B :=
  match snd m with
  | Ok a => ((fst m ++ fst (k a))%list, snd (k a))
  | Raise e => (fst m, Raise e)
  end.

Notation "x <~ e ;; k" := (eff_bind e (fun x => k))
  (at level 61, e at next level, right associativity).

Definition required_fields : list string :=
  [ "anomaly_id"; "detected_at"; "metric_name"; "metric_type";
    "current_value"; "baseline_value"; "deviation_sigma";
    "deviation_percentage"; "anomaly_type"; "severity" ].

Definition preflight_headers : list (string * string) :=
  [ ("Access-Control-Allow-Origin", "*");
    ("Access-Control-Allow-Methods", "POST");
    ("Access-Control-Allow-Headers", "Content-Type");
    ("Access-Control-Max-Age", "3600") ].

Definition cors_headers : list (string * string) :=
  [ ("Access-Control-Allow-Origin", "*");
    ("Content-Type", "application/json") ].

(** [json.dumps(v)] *)
Definition dumps (v : value) : result payload :=
  if json_serializable v then Ok (Dumps v)
  else Raise (TypeError "Object of type datetime is not JSON serializable").

Section WithBuiltins.
Context {B : Builtins}.

(** [[f for f in required_fields if f not in request_json]] *)
Definition missing_fields (request_json : value) : result (list string) :=
  filterM (fun f => present <- contains request_json f ;; Ok (negb present))
          required_fields.

(** From the log line that reads [request_json['anomaly_id']] to the end of
    the [Anomaly(...)] call; the keyword arguments are evaluated in order. *)
Definition construct_anomaly (request_json : value) : result Anomaly.t :=
  _ <- getitem request_json "anomaly_id" ;;
  raw <- getitem request_json "detected_at" ;;
  text <- replace_Z raw ;;
  detected_at <- datetime_fromisoformat text ;;
  anomaly_id <- getitem request_json "anomaly_id" ;;
  metric_name <- getitem request_json "metric_name" ;;
  metric_type <- getitem request_json "metric_type" ;;
  v1 <- getitem request_json "current_value" ;;
  current_value <- float_ v1 ;;
  v2 <- getitem request_json "baseline_value" ;;
  baseline_value <- float_ v2 ;;
  v3 <- getitem request_json "deviation_sigma" ;;
  deviation_sigma <- float_ v3 ;;
  v4 <- getitem request_json "deviation_percentage" ;;
  deviation_percentage <- float_ v4 ;;
  v5 <- getitem request_json "anomaly_type" ;;
  anomaly_type <- AnomalyType_call v5 ;;
  v6 <- getitem request_json "severity" ;;
  severity <- Severity_call v6 ;;
  confidence <- get request_json "confidence" (VFloat 0.8%float) ;;
  affected_resources <- get request_json "affected_resources" (VList []) ;;
  time_window <- get request_json "time_window" (VDict []) ;;
  related_metrics <- get request_json "related_metrics" (VDict []) ;;
  metadata <- get request_json "metadata" (VDict []) ;;
  Ok (Anomaly.mk anomaly_id detected_at metric_name metric_type
        current_value baseline_value deviation_sigma deviation_percentage
        anomaly_type severity confidence affected_resources time_window
        related_metrics metadata).

(** [get_config()], [AnomalyAnalyzerAgent(config)],
    [analyzer.analyze_anomaly(anomaly)] *)
Definition run_analyzer (env : Collaborators) (anomaly : Anomaly.t)
  : eff AnomalyAnalysis.t :=
  config <~ perform Call_get_config (get_config env) ;;
  analyzer <~ perform Call_AnomalyAnalyzerAgent (AnomalyAnalyzerAgent env config) ;;
  perform (Call_analyze_anomaly anomaly) (Agent_analyze_anomaly env analyzer anomaly).

(** The [response_data] dictionary, with the summary block added when
    [analysis.summary] is true. *)
Definition response_data (analysis : AnomalyAnalysis.t) : list (string * value) :=
  let root_cause := AnomalyAnalysis.root_cause analysis in
  let data :=
    [ ("success", VBool true);
      ("anomaly_id", Anomaly.anomaly_id (AnomalyAnalysis.anomaly analysis));
      ("root_cause", VDict
         [ ("primary_cause", VStr (RootCause.primary_cause root_cause));
           ("contributing_factors", strs (RootCause.contributing_factors root_cause));
           ("confidence", VFloat (RootCause.confidence root_cause));
           ("evidence", strs (RootCause.evidence root_cause)) ]);
      ("recommendations", VList (map (fun rec => VDict
         [ ("priority", VStr (Recommendation.priority rec));
           ("action", VStr (Recommendation.action rec));
           ("rationale", VStr (Recommendation.rationale rec));
           ("expected_impact", VStr (Recommendation.expected_impact rec));
           ("implementation_steps", strs (Recommendation.implementation_steps rec));
           ("estimated_effort", VStr (Recommendation.estimated_effort rec));
           ("risk_level", VStr (Recommendation.risk_level rec)) ])
         (AnomalyAnalysis.recommendations analysis)));
      ("analyzed_at", VStr (isoformat (AnomalyAnalysis.analyzed_at analysis) ++ "Z"));
      ("ai_model_used", VStr (AnomalyAnalysis.ai_model_used analysis));
      ("analysis_duration_ms", VInt (AnomalyAnalysis.analysis_duration_ms analysis));
      ("saved_to_bigquery", VBool true) ] in
  if AnomalyAnalysis.summary_truthy (AnomalyAnalysis.summary analysis)
  then match AnomalyAnalysis.summary analysis with
       | Some s => dict_set "human_readable_summary" (HumanReadableSummary.as_dict s) data
       | None => data
       end
  else data.

(** [return (json.dumps(d), code, headers)] *)
Definition respond (d : list (string * value)) (code : Z) : result Response :=
  b <- dumps (VDict d) ;; Ok (mk_response b code cors_headers).

(** The body of the [try] statement. *)
Definition try_block (env : Collaborators) (request_json : value) : eff Response :=
  if negb (truthy request_json) then
    lift (respond [ ("error", VStr "Invalid request");
                    ("message", VStr "Request body must be JSON") ] 400)
  else
    missing <~ lift (missing_fields request_json) ;;
    if truthy (strs missing) then
      lift (respond [ ("error", VStr "Missing required fields");
                      ("missing", strs missing);
                      ("required", strs required_fields) ] 400)
    else
      anomaly <~ lift (construct_anomaly request_json) ;;
      analysis <~ run_analyzer env anomaly ;;
      lift (respond (response_data analysis) 200).

(** The tuple returned by the [except ValueError] clause. *)
Definition validation_error (e : exn) : Response :=
  mk_response (Dumps (VDict [ ("error", VStr "Validation error");
                              ("message", VStr (exn_str e)) ]))
              400 cors_headers.

(** The tuple returned by the [except Exception] clause. *)
Definition internal_server_error (e : exn) : Response :=
  mk_response (Dumps (VDict [ ("error", VStr "Internal server error");
                              ("message", VStr (exn_str e));
                              ("type", VStr (exn_type e)) ]))
              500 cors_headers.

(** The handler: the preflight branch, the [try] body, and the two
    [except] clauses in order. The result pairs the collaborator calls that
    were made with the returned tuple. *)
Definition analyze_anomaly (env : Collaborators) (request : Request)
  : list call * Response :=
  if String.eqb (method request) "OPTIONS" then
    ([], mk_response (Text "") 204 preflight_headers)
  else
    let run := try_block env (get_json request) in
    match snd run with
    | Ok response => (fst run, response)
    | Raise e =>
        if isinstance_ValueError e then (fst run, validation_error e)
        else (fst run, internal_server_error e)
    end.

End WithBuiltins.

(** Reading a key of the JSON object a response carries. *)
Definition envelope_field (k : string) (r : Response) : option value :=
  match body r with
  | Dumps (VDict d) => dict_lookup k d
  | _ => None
  end.

(** The four fields the handler passes through [float]. *)
Definition numeric_fields : list string :=
  [ "current_value"; "baseline_value"; "deviation_sigma"; "deviation_percentage" ].

End Main.

(* ================================================================= *)
(** ** Fixtures: an interpreter instance for the examples, and sample data

    The general theorems hold for every [Builtins]. The closed examples need
    one: [reference] implements [repr] on scalars and ASCII text, [float] on
    plain integer text, and ISO 8601 parsing and printing in the canonical
    shape, and agrees with CPython on every input the examples feed it. *)

Module Fixture.
Import Py Models Main.

(** *** Text helpers *)

Definition digit_char (d : Z) : ascii := ascii_of_nat (48 + Z.to_nat d).

(** Decimal digits of a non-negative number, most significant first;
    [fuel] bounds the number of digits. *)
Fixpoint digits (fuel : nat) (n : Z) (acc : string) : string :=
  match fuel with
  | O => acc
  | S fuel' =>
      let acc' := String (digit_char (n mod 10)) acc in
      if (n / 10 =? 0)%Z then acc' else digits fuel' (n / 10) acc'
  end.

Definition decimal (n : Z) : string :=
  if (n <? 0)%Z then "-" ++ digits (S (Z.to_nat (Z.log2 (- n)))) (- n) ""
  else digits (S (Z.to_nat (Z.log2 n))) n "".

(** [n] written with at least [width] digits ([%0<width>d], [n >= 0]). *)
Fixpoint zero_pad (width : nat) (n : Z) : string :=
  match width with
  | O => if (n =? 0)%Z then "" else decimal n
  | S w => zero_pad w (n / 10) ++ String (digit_char (n mod 10)) ""
  end.

Definition digit_value (c : ascii) : option Z :=
  let n := Z.of_nat (nat_of_ascii c) in
  if ((48 <=? n) && (n <=? 57))%Z then Some (n - 48)%Z else None.

Definition two_digits (c1 c2 : ascii) : option Z :=
  match digit_value c1, digit_value c2 with
  | Some a, Some b => Some (10 * a + b)%Z
  | _, _ => None
  end.

Definition four_digits (c1 c2 c3 c4 : ascii) : option Z :=
  match two_digits c1 c2, two_digits c3 c4 with
  | Some a, Some b => Some (100 * a + b)%Z
  | _, _ => None
  end.

(** *** [repr] *)

Definition hex_char (d : nat) : ascii :=
  if Nat.ltb d 10 then ascii_of_nat (48 + d) else ascii_of_nat (87 + d).

Definition escape_char (quote c : ascii) : string :=
  let n := nat_of_ascii c in
  if Ascii.eqb c "\"%char then "\\"
  else if Ascii.eqb c quote then String "\"%char (String quote "")
  else if Nat.eqb n 10 then "\n"
  else if Nat.eqb n 13 then "\r"
  else if Nat.eqb n 9 then "\t"
  else if Nat.ltb n 32 || Nat.eqb n 127
       then "\x" ++ String (hex_char (n / 16)) (String (hex_char (n mod 16)) "")
  else String c "".

Fixpoint escape (quote : ascii) (s : string) : string :=
  match s with
  | EmptyString => EmptyString
  | String c s' => escape_char quote c ++ escape quote s'
  end.

Definition apostrophe : ascii := ascii_of_nat 39.
Definition double_quote : ascii := ascii_of_nat 34.

(** [repr] of a [str] of ASCII characters: single quotes, unless the text
    has an apostrophe and no double quote. *)
Definition repr_str (s : string) : string :=
  let q := if str_in (String apostrophe "") s && negb (str_in (String double_quote "") s)
           then double_quote else apostrophe in
  String q (escape q s ++ String q "").

(** [repr] of scalars and strings; the examples print nothing else, and
    other objects are rendered by their type name only. *)
Definition repr_ref (v : value) : string :=
  match v with
  | VNone => "None"
  | VBool true => "True"
  | VBool false => "False"
  | VInt z => decimal z
  | VStr s => repr_str s
  | _ => "<" ++ type_name v ++ ">"
  end.

(** *** [float] on text, restricted to optionally signed runs of digits;
    the instance reports any other text as unparsable, which is what the
    interpreter does for the non-numeric text of the examples. *)
Fixpoint all_digits (s : string) (acc : Z) : option Z :=
  match s with
  | EmptyString => Some acc
  | String c s' =>
      match digit_value c with
      | Some d => all_digits s' (10 * acc + d)
      | None => None
      end
  end.

Definition float_of_str_ref (s : string) : option float :=
  let to_float (z : option Z) :=
    match z with
    | Some n =>
        match binary_normalize 53 1024 n 0 false with
        | S754_infinity _ => None
        | sf => Some (SF2Prim sf)
        end
    | None => None
    end in
  match s with
  | EmptyString => None
  | String c s' =>
      if Ascii.eqb c "-"%char then
        match s' with
        | EmptyString => None
        | _ => to_float (option_map Z.opp (all_digits s' 0))
        end
      else to_float (all_digits s 0)
  end.

(** *** ISO 8601 text in the canonical shape
    [YYYY-MM-DDTHH:MM:SS], optionally followed by [+HH:MM] or [-HH:MM]. *)

Definition is_leap (y : Z) : bool :=
  ((y mod 4 =? 0) && (negb (y mod 100 =? 0) || (y mod 400 =? 0)))%Z.

Definition days_in_month (y m : Z) : Z :=
  if (m =? 2)%Z then (if is_leap y then 29 else 28)
  else if ((m =? 4) || (m =? 6) || (m =? 9) || (m =? 11))%Z then 30
  else 31.

Definition valid_fields (y mo d h mi s : Z) : bool :=
  ((1 <=? y) && (1 <=? mo) && (mo <=? 12) && (1 <=? d) && (d <=? days_in_month y mo)
   && (h <=? 23) && (mi <=? 59) && (s <=? 59))%Z.

Definition parse_offset (cs : list ascii) : option (option Z) :=
  match cs with
  | [] => Some None
  | [sg; h1; h2; c; m1; m2] =>
      match two_digits h1 h2, two_digits m1 m2 with
      | Some h, Some m =>
          if Ascii.eqb c ":"%char && (h <=? 23)%Z && (m <=? 59)%Z then
            let us := ((h * 3600 + m * 60) * 1000000)%Z in
            if Ascii.eqb sg "+"%char then Some (Some us)
            else if Ascii.eqb sg "-"%char then Some (Some (- us)%Z)
            else None
          else None
      | _, _ => None
      end
  | _ => None
  end.

Definition parse_iso (cs : list ascii) : option datetime :=
  match cs with
  | y1 :: y2 :: y3 :: y4 :: c1 :: mo1 :: mo2 :: c2 :: d1 :: d2 :: c3
       :: h1 :: h2 :: c4 :: mi1 :: mi2 :: c5 :: s1 :: s2 :: rest =>
      match four_digits y1 y2 y3 y4, two_digits mo1 mo2, two_digits d1 d2,
            two_digits h1 h2, two_digits mi1 mi2, two_digits s1 s2,
            parse_offset rest with
      | Some y, Some mo, Some d, Some h, Some mi, Some s, Some off =>
          if Ascii.eqb c1 "-"%char && Ascii.eqb c2 "-"%char && Ascii.eqb c3 "T"%char
             && Ascii.eqb c4 ":"%char && Ascii.eqb c5 ":"%char
             && valid_fields y mo d h mi s
          then Some (mk_datetime y mo d h mi s 0 off)
          else None
      | _, _, _, _, _, _, _ => None
      end
  | _ => None
  end.

Definition fromisoformat_ref (s : string) : datetime + string :=
  match parse_iso (list_ascii_of_string s) with
  | Some t => inl t
  | None => inr ("Invalid isoformat string: " ++ repr_str s)
  end.

Definition offset_text (us : Z) : string :=
  let a := Z.abs us in
  let secs := (a / 1000000)%Z in
  (if (us <? 0)%Z then "-" else "+")
  ++ zero_pad 2 (secs / 3600) ++ ":" ++ zero_pad 2 ((secs / 60) mod 60)
  ++ (if ((secs mod 60 =? 0) && (a mod 1000000 =? 0))%Z then ""
      else ":" ++ zero_pad 2 (secs mod 60)
           ++ (if (a mod 1000000 =? 0)%Z then "" else "." ++ zero_pad 6 (a mod 1000000))).

Definition isoformat_ref (t : datetime) : string :=
  zero_pad 4 (year t) ++ "-" ++ zero_pad 2 (month t) ++ "-" ++ zero_pad 2 (day t)
  ++ "T" ++ zero_pad 2 (hour t) ++ ":" ++ zero_pad 2 (minute t) ++ ":" ++ zero_pad 2 (second t)
  ++ (if (microsecond t =? 0)%Z then "" else "." ++ zero_pad 6 (microsecond t))
  ++ match utcoffset t with
     | Some us => offset_text us
     | None => ""
     end.

(** The reference instance. *)
Definition reference : Builtins :=
  {| repr := repr_ref;
     float_of_str := float_of_str_ref;
     fromisoformat := fromisoformat_ref;
     isoformat := isoformat_ref |}.

(** *** Sample requests *)

(** The literal input of the specification's testable properties. *)
Definition literal_fields : list (string * value) :=
  [ ("anomaly_id", VStr "anom_1");
    ("detected_at", VStr "2024-12-16T14:05:30Z");
    ("metric_name", VStr "error_rate");
    ("metric_type", VStr "error_rate");
    ("current_value", VFloat 15.5%float);
    ("baseline_value", VFloat 2.3%float);
    ("deviation_sigma", VFloat 5.2%float);
    ("deviation_percentage", VFloat 574.0%float);
    ("anomaly_type", VStr "stability");
    ("severity", VStr "high") ].

Definition post (request_json : value) : Request := mk_request "POST" request_json.

Definition literal : value := VDict literal_fields.

(** The literal with one key overwritten or added. *)
Definition literal_with (k : string) (v : value) : value :=
  VDict (dict_set k v literal_fields).

(** The literal without one key. *)
Definition literal_without (k : string) : value :=
  VDict (filter (fun kv => negb (String.eqb (fst kv) k)) literal_fields).

(** 2024-12-16 14:05:30 UTC *)
Definition literal_time : datetime := mk_datetime 2024 12 16 14 5 30 0 (Some 0%Z).

(** The [Anomaly] the handler builds from the literal. *)
Definition literal_anomaly : Anomaly.t :=
  Anomaly.mk (VStr "anom_1") literal_time (VStr "error_rate") (VStr "error_rate")
    15.5%float 2.3%float 5.2%float 574.0%float STABILITY HIGH
    (VFloat 0.8%float) (VList []) (VDict []) (VDict []) (VDict []).

(** *** Sample collaborators *)

Definition sample_root_cause : RootCause.t :=
  RootCause.mk "deployment regression" ["traffic spike"] 0.9%float ["error logs"] (VDict []).

Definition sample_analysis (anomaly : Anomaly.t) (summary : option HumanReadableSummary.t)
  : AnomalyAnalysis.t :=
  AnomalyAnalysis.mk anomaly sample_root_cause []
    (mk_datetime 2024 12 16 14 5 35 0 None) 5000 "gemini" "" "" "" summary.

Definition empty_summary : HumanReadableSummary.t :=
  HumanReadableSummary.mk "" "" "" "" "".

(** An engine that answers every anomaly with [sample_analysis]. *)
Definition answering (summary : option HumanReadableSummary.t) : Collaborators :=
  mk_collaborators unit unit (Ok tt) (fun _ => Ok tt)
    (fun _ anomaly => Ok (sample_analysis anomaly summary)).

(** An engine whose [analyze_anomaly] raises [e]. *)
Definition failing (e : exn) : Collaborators :=
  mk_collaborators unit unit (Ok tt) (fun _ => Ok tt) (fun _ _ => Raise e).

End Fixture.

(* ================================================================= *)
(** ** Vocabulary of the statements *)

Module Contract.
Import Py Models Main.

(** Every required key is a key of the object. *)
Definition has_required (d : list (string * value)) : Prop :=
  forall f, In f required_fields -> dict_has d f = true.

(** The keys of [required_fields] the object lacks, in their order. *)
Definition absent_keys (d : list (string * value)) : list string :=
  filter (fun f => negb (dict_has d f)) required_fields.

(** The string values of the two enumerations. *)
Definition AnomalyType_values : list string := map AnomalyType_value AnomalyType_members.
Definition Severity_values : list string := map Severity_value Severity_members.

(** A status in the 2xx range. *)
Definition is_2xx (code : Z) : Prop := (200 <= code < 300)%Z.

Section WithBuiltins.
Context {B : Builtins}.

(** [detected_at] holds text that [fromisoformat] parses after the [Z]
    rewrite. *)
Definition timestamp_parses (d : list (string * value)) : Prop :=
  exists s t, dict_lookup "detected_at" d = Some (VStr s)
              /\ fromisoformat (str_replace1 "Z"%char "+00:00" s) = inl t.

(** The value under key [f] is one [float] accepts. *)
Definition coerces (d : list (string * value)) (f : string) : Prop :=
  exists v x, dict_lookup f d = Some v /\ float_ v = Ok x.

(** The validator lets the request through and builds [a]: the body is
    true, no required key is missing, and construction returns. *)
Definition accepted (request_json : value) (a : Anomaly.t) : Prop :=
  truthy request_json = true
  /\ missing_fields request_json = Ok []
  /\ construct_anomaly request_json = Ok a.

(** Serialize, then run the result through construction again. *)
Definition reparse (a : Anomaly.t) : result Anomaly.t :=
  d <- Anomaly.to_dict a ;; construct_anomaly d.

End WithBuiltins.

(** What [dict.get] returns on an object. *)
Definition get_or (d : list (string * value)) (k : string) (default : value) : value :=
  match dict_lookup k d with
  | Some v => v
  | None => default
  end.

(** The column type the specification prescribes for a field: floats as
    double precision ([FLOAT] is BigQuery's 64-bit type), timestamps as
    [TIMESTAMP], strings and enumerations (serialized to their string value)
    as [STRING], nested sequences and mappings as [JSON]. *)
Definition spec_column_type (a : annotation) : string :=
  match a with
  | Tstr => "STRING"
  | Tdatetime => "TIMESTAMP"
  | Tfloat => "FLOAT"
  | TAnomalyType => "STRING"
  | TSeverity => "STRING"
  | TList => "JSON"
  | TDict => "JSON"
  end.

End Contract.

(* ================================================================= *)
(** ** [AnomalyAnalysis.get_plain_language_report] *)

Module Report.
Import Py Models.

(** The two formatting services of the interpreter the report uses. *)
Class Formatting : Type := {
  (** [t.strftime(fmt)] *)
  strftime : datetime -> string -> string;
  (** [format(x, '.0f')]: fixed notation without fraction digits *)
  format_f0 : float -> string
}.

(** The line feed. *)
Definition nl : string := String (ascii_of_nat 10) "".

(** [s * n] *)
Fixpoint str_mul (s : string) (n : nat) : string :=
  match n with
  | O => ""
  | S n' => s ++ str_mul s n'
  end.

(** The ASCII characters [str.strip] removes: tab to carriage return, the
    four separators FS..US, and the space. *)
Definition isspace (c : ascii) : bool :=
  let n := nat_of_ascii c in
  Nat.eqb n 32 || (Nat.leb 9 n && Nat.leb n 13) || (Nat.leb 28 n && Nat.leb n 31).

Fixpoint lstrip (s : string) : string :=
  match s with
  | EmptyString => EmptyString
  | String c s' => if isspace c then lstrip s' else s
  end.

Fixpoint rstrip (s : string) : string :=
  match s with
  | EmptyString => EmptyString
  | String c s' =>
      match rstrip s' with
      | EmptyString => if isspace c then EmptyString else String c EmptyString
      | r => String c r
      end
  end.

(** [s.strip()] *)
Definition strip (s : string) : string := rstrip (lstrip s).

Section WithFormatting.
Context {F : Formatting}.

(** [format(x, '.0%')]: the number times one hundred in fixed notation,
    followed by a percent sign. *)
Definition format_percent0 (x : float) : string :=
  format_f0 (PrimFloat.mul x 100%float) ++ "%".

(** The f-string of the report, before [strip]. *)
Definition report_template (self : AnomalyAnalysis.t) (s : HumanReadableSummary.t) : string :=
  nl ++ "ANOMALY ANALYSIS REPORT" ++ nl
  ++ str_mul "=" 80 ++ nl
  ++ nl
  ++ "WHAT HAPPENED:" ++ nl
  ++ HumanReadableSummary.what_happened s ++ nl
  ++ nl
  ++ "WHY IT HAPPENED:" ++ nl
  ++ HumanReadableSummary.why_it_happened s ++ nl
  ++ nl
  ++ "WHAT IS THE IMPACT:" ++ nl
  ++ HumanReadableSummary.what_is_the_impact s ++ nl
  ++ nl
  ++ "WHAT IMPROVEMENTS CAN BE MADE:" ++ nl
  ++ HumanReadableSummary.what_improvements_can_be_made s ++ nl
  ++ nl
  ++ "ESTIMATED BENEFIT IF IMPLEMENTED:" ++ nl
  ++ HumanReadableSummary.estimated_benefit_if_implemented s ++ nl
  ++ nl
  ++ str_mul "=" 80 ++ nl
  ++ "Analysis completed at: "
  ++ strftime (AnomalyAnalysis.analyzed_at self) "%Y-%m-%d %H:%M:%S UTC" ++ nl
  ++ "Confidence level: "
  ++ format_percent0 (RootCause.confidence (AnomalyAnalysis.root_cause self)) ++ nl.

(** [if not self.summary] holds for [None] only (see
    [AnomalyAnalysis.summary_truthy]). *)
Definition get_plain_language_report (self : AnomalyAnalysis.t) : string :=
  match AnomalyAnalysis.summary self with
  | None => "Summary not available"
  | Some s => strip (report_template self s)
  end.

End WithFormatting.
End Report.

(* ================================================================= *)
(** ** [main.py]: the [health] endpoint *)

Module Health.
Import Py Models Main.

(** What [health] reads beyond the collaborators of the analysis handler:
    the analyzer's [get_false_positive_rate()], the two configuration
    attributes, and the clock ([utcnow n] is the [n]-th reading of
    [datetime.utcnow()] during the call, counted from zero). *)
Record Environment : Type := mk_environment {
  collaborators : Collaborators;
  get_false_positive_rate : Agent collaborators -> result value;
  bigquery_project_id : Config collaborators -> result value;
  bigquery_dataset_id : Config collaborators -> result value;
  utcnow : nat -> datetime
}.

Section WithBuiltins.
Context {B : Builtins}.

(** The body of the [try] statement, with the number of clock readings it
    made. The dictionary display reads the clock before the two
    configuration attributes. *)
Definition try_health (env : Environment) : nat * result Response :=
  match get_config (collaborators env) with
  | Raise e => (0%nat, Raise e)
  | Ok config =>
      match AnomalyAnalyzerAgent (collaborators env) config with
      | Raise e => (0%nat, Raise e)
      | Ok analyzer =>
          match get_false_positive_rate env analyzer with
          | Raise e => (0%nat, Raise e)
          | Ok fp_rate =>
              (1%nat,
               project_id <- bigquery_project_id env config ;;
               dataset_id <- bigquery_dataset_id env config ;;
               respond [ ("status", VStr "healthy");
                         ("service", VStr "anomaly-analyzer");
                         ("timestamp", VStr (isoformat (utcnow env 0) ++ "Z"));
                         ("project_id", project_id);
                         ("dataset_id", dataset_id);
                         ("false_positive_rate", fp_rate) ] 200)
          end
      end
  end.

(** The handler; the request is not read. *)
Definition health (env : Environment) (request : Request) : Response :=
  match snd (try_health env) with
  | Ok response => response
  | Raise e =>
      mk_response
        (Dumps (VDict [ ("status", VStr "unhealthy");
                        ("service", VStr "anomaly-analyzer");
                        ("error", VStr (exn_str e));
                        ("timestamp",
                         VStr (isoformat (utcnow env (fst (try_health env))) ++ "Z")) ]))
        503 cors_headers
  end.

End WithBuiltins.
End Health.

(* ================================================================= *)
(** ** [src/models/baseline.py] *)

Module Baseline.
Import Py Models.

(** [@dataclass class BaselineStats]. [calculated_at] is kept as an object:
    [to_bigquery_row] itself tests whether it is a [datetime]. *)
Record BaselineStats : Type := mk {
  baseline_id : string;
  metric_name : string;
  mean : float;
  std_dev : float;
  min_value : float;
  max_value : float;
  p50 : float;
  p95 : float;
  p99 : float;
  calculated_at : value;
  lookback_days : Z;
  sample_count : Z;
  data_source : string;
  notes : option string
}.

(** [Optional[str]] as an object. *)
Definition optional_str (o : option string) : value :=
  match o with
  | Some s => VStr s
  | None => VNone
  end.

(** [dataclasses.asdict(self)]: the fields in declaration order. *)
Definition asdict (self : BaselineStats) : list (string * value) :=
  [ ("baseline_id", VStr (baseline_id self));
    ("metric_name", VStr (metric_name self));
    ("mean", VFloat (mean self));
    ("std_dev", VFloat (std_dev self));
    ("min_value", VFloat (min_value self));
    ("max_value", VFloat (max_value self));
    ("p50", VFloat (p50 self));
    ("p95", VFloat (p95 self));
    ("p99", VFloat (p99 self));
    ("calculated_at", calculated_at self);
    ("lookback_days", VInt (lookback_days self));
    ("sample_count", VInt (sample_count self));
    ("data_source", VStr (data_source self));
    ("notes", optional_str (notes self)) ].

(** [x or ''] *)
Definition or_empty (x : value) : value :=
  if truthy x then x else VStr "".

Section WithBuiltins.
Context {B : Builtins}.

Definition to_dict (self : BaselineStats) : result (list (string * value)) :=
  let data := asdict self in
  text <- call_isoformat (calculated_at self) ;;
  Ok (dict_set "calculated_at" (VStr text) data).

Definition to_bigquery_row (self : BaselineStats) : list (string * value) :=
  [ ("baseline_id", VStr (baseline_id self));
    ("metric_name", VStr (metric_name self));
    ("mean", VFloat (mean self));
    ("std_dev", VFloat (std_dev self));
    ("min_value", VFloat (min_value self));
    ("max_value", VFloat (max_value self));
    ("p50", VFloat (p50 self));
    ("p95", VFloat (p95 self));
    ("p99", VFloat (p99 self));
    ("calculated_at",
     match calculated_at self with
     | VDatetime t => VStr (isoformat t)
     | other => other
     end);
    ("lookback_days", VInt (lookback_days self));
    ("sample_count", VInt (sample_count self));
    ("data_source", VStr (data_source self));
    ("notes", or_empty (optional_str (notes self))) ].

End WithBuiltins.

Definition BASELINE_TABLE_SCHEMA : list column :=
  [ mk_column "baseline_id" "STRING" "REQUIRED";
    mk_column "metric_name" "STRING" "REQUIRED";
    mk_column "mean" "FLOAT" "REQUIRED";
    mk_column "std_dev" "FLOAT" "REQUIRED";
    mk_column "min_value" "FLOAT" "REQUIRED";
    mk_column "max_value" "FLOAT" "REQUIRED";
    mk_column "p50" "FLOAT" "REQUIRED";
    mk_column "p95" "FLOAT" "REQUIRED";
    mk_column "p99" "FLOAT" "REQUIRED";
    mk_column "calculated_at" "TIMESTAMP" "REQUIRED";
    mk_column "lookback_days" "INTEGER" "REQUIRED";
    mk_column "sample_count" "INTEGER" "REQUIRED";
    mk_column "data_source" "STRING" "REQUIRED";
    mk_column "notes" "STRING" "NULLABLE" ].

(** The kind of object a cell of a column of the given type holds; a
    timestamp cell holds ISO 8601 text. *)
Definition cell_has_type (field_type : string) (v : value) : bool :=
  match v with
  | VStr _ => String.eqb field_type "STRING" || String.eqb field_type "TIMESTAMP"
  | VFloat _ => String.eqb field_type "FLOAT"
  | VInt _ => String.eqb field_type "INTEGER"
  | _ => false
  end.

End Baseline.

(* ================================================================= *)
(** ** Further vocabulary and samples *)

Module Shapes.
Import Py Models Main Contract.

(** The envelopes of the handler, by name. *)
Definition preflight : Response := mk_response (Text "") 204 preflight_headers.

Definition invalid_request : Response :=
  mk_response (Dumps (VDict [ ("error", VStr "Invalid request");
                              ("message", VStr "Request body must be JSON") ]))
              400 cors_headers.

Definition missing_required (missing : list string) : Response :=
  mk_response (Dumps (VDict [ ("error", VStr "Missing required fields");
                              ("missing", strs missing);
                              ("required", strs required_fields) ]))
              400 cors_headers.

Section WithBuiltins.
Context {B : Builtins}.

Definition success (analysis : AnomalyAnalysis.t) : Response :=
  mk_response (Dumps (VDict (response_data analysis))) 200 cors_headers.

(** The relation between an object and the [Anomaly] built from it, field
    by field. *)
Definition constructs (d : list (string * value)) (a : Anomaly.t) : Prop :=
  dict_lookup "anomaly_id" d = Some (Anomaly.anomaly_id a)
  /\ (exists s, dict_lookup "detected_at" d = Some (VStr s)
                /\ fromisoformat (str_replace1 "Z"%char "+00:00" s)
                   = inl (Anomaly.detected_at a))
  /\ dict_lookup "metric_name" d = Some (Anomaly.metric_name a)
  /\ dict_lookup "metric_type" d = Some (Anomaly.metric_type a)
  /\ (exists v, dict_lookup "current_value" d = Some v
                /\ float_ v = Ok (Anomaly.current_value a))
  /\ (exists v, dict_lookup "baseline_value" d = Some v
                /\ float_ v = Ok (Anomaly.baseline_value a))
  /\ (exists v, dict_lookup "deviation_sigma" d = Some v
                /\ float_ v = Ok (Anomaly.deviation_sigma a))
  /\ (exists v, dict_lookup "deviation_percentage" d = Some v
                /\ float_ v = Ok (Anomaly.deviation_percentage a))
  /\ (exists v, dict_lookup "anomaly_type" d = Some v
                /\ AnomalyType_call v = Ok (Anomaly.anomaly_type a))
  /\ (exists v, dict_lookup "severity" d = Some v
                /\ Severity_call v = Ok (Anomaly.severity a))
  /\ Anomaly.confidence a = get_or d "confidence" (VFloat 0.8%float)
  /\ Anomaly.affected_resources a = get_or d "affected_resources" (VList [])
  /\ Anomaly.time_window a = get_or d "time_window" (VDict [])
  /\ Anomaly.related_metrics a = get_or d "related_metrics" (VDict [])
  /\ Anomaly.metadata a = get_or d "metadata" (VDict []).

End WithBuiltins.

Definition is_datetime (v : value) : bool :=
  match v with
  | VDatetime _ => true
  | _ => false
  end.

Definition is_str (v : value) : bool :=
  match v with
  | VStr _ => true
  | _ => false
  end.

(** The keys of the success envelope before the optional summary block, of
    its [root_cause] object and of each of its recommendations. *)
Definition envelope_keys : list string :=
  [ "success"; "anomaly_id"; "root_cause"; "recommendations"; "analyzed_at";
    "ai_model_used"; "analysis_duration_ms"; "saved_to_bigquery" ].

Definition root_cause_keys : list string :=
  [ "primary_cause"; "contributing_factors"; "confidence"; "evidence" ].

Definition recommendation_keys : list string :=
  [ "priority"; "action"; "rationale"; "expected_impact";
    "implementation_steps"; "estimated_effort"; "risk_level" ].

End Shapes.

Module Samples.
Import Py Models Main Report Health Baseline.

(** [strftime] for the one format the report uses. *)
Definition strftime_ref (t : datetime) (fmt : string) : string :=
  Fixture.zero_pad 4 (year t) ++ "-" ++ Fixture.zero_pad 2 (month t) ++ "-"
  ++ Fixture.zero_pad 2 (day t) ++ " " ++ Fixture.zero_pad 2 (hour t) ++ ":"
  ++ Fixture.zero_pad 2 (minute t) ++ ":" ++ Fixture.zero_pad 2 (second t) ++ " UTC".

(** [format(x, '.0f')]: the nearest integer, ties to even, of a finite
    number; [nan] and [inf] by name. *)
Definition format_f0_ref (x : float) : string :=
  match Prim2SF x with
  | S754_zero s => if s then "-0" else "0"
  | S754_infinity s => if s then "-inf" else "inf"
  | S754_nan => "nan"
  | S754_finite s m e =>
      let n :=
        match e with
        | Zneg k =>
            let d := Z.pow_pos 2 k in
            let q := (Zpos m / d)%Z in
            let r := (Zpos m mod d)%Z in
            if (d <? 2 * r)%Z then (q + 1)%Z
            else if (d =? 2 * r)%Z then (if Z.even q then q else q + 1)%Z
            else q
        | _ => (Zpos m * 2 ^ e)%Z
        end in
      (if s then "-" else "") ++ Fixture.decimal n
  end.

Definition formatting : Formatting :=
  {| strftime := strftime_ref; format_f0 := format_f0_ref |}.

Definition summary : HumanReadableSummary.t :=
  HumanReadableSummary.mk "Errors rose." "A deploy." "Checkout fails." "Roll back." "Fewer errors.".

Definition sample_recommendation : Recommendation.t :=
  Recommendation.mk "high" "roll back" "regression" "errors drop" ["revert"; "redeploy"]
    "1 hour" "low" None.

Definition analysis_with_recommendation : AnomalyAnalysis.t :=
  AnomalyAnalysis.mk Fixture.literal_anomaly Fixture.sample_root_cause
    [sample_recommendation] (mk_datetime 2024 12 16 14 5 35 0 None) 5000 "gemini"
    "" "" "" (Some summary).

(** An [Anomaly] whose window holds [datetime] objects. *)
Definition windowed_anomaly : Anomaly.t :=
  Anomaly.mk (VStr "anom_1") Fixture.literal_time (VStr "error_rate") (VStr "error_rate")
    15.5%float 2.3%float 5.2%float 574.0%float STABILITY HIGH
    (VFloat 0.8%float) (VList [])
    (VDict [ ("start", VDatetime (mk_datetime 2024 12 16 14 0 0 0 None));
             ("end", VDatetime (mk_datetime 2024 12 16 14 10 0 0 None)) ])
    (VDict []) (VDict []).

(** A healthy environment, and one whose analyzer cannot be built. *)
Definition clock (n : nat) : datetime :=
  mk_datetime 2024 12 16 14 5 (30 + Z.of_nat n) 0 None.

Definition healthy : Environment :=
  mk_environment (Fixture.answering None)
    (fun _ => Ok (VFloat 0.05%float))
    (fun _ => Ok (VStr "my-project"))
    (fun _ => Ok (VStr "anomalies"))
    clock.

Definition unreachable_backend : Environment :=
  mk_environment
    (mk_collaborators unit unit (Ok tt)
       (fun _ => Raise (mk_exn "ConnectionError" false "BigQuery unreachable"))
       (fun _ anomaly => Ok (Fixture.sample_analysis anomaly None)))
    (fun _ => Ok (VFloat 0.05%float))
    (fun _ => Ok (VStr "my-project"))
    (fun _ => Ok (VStr "anomalies"))
    clock.

Definition baseline : BaselineStats :=
  Baseline.mk "baseline-error_rate-20241216" "error_rate"
    2.3%float 0.5%float 0.1%float 9.9%float 2.1%float 3.4%float 5.0%float
    (VDatetime (mk_datetime 2024 12 16 0 0 0 0 None)) 30 43200 "metrics" None.

End Samples.

(* ================================================================= *)
(** ** Control flow of the handler *)

Import Py Models Main Contract.

Lemma eff_bind_lift_Ok {A R : Type} (a : A) (k : A -> eff R) :
  eff_bind (lift (Ok a)) k = k a.
Proof.
  unfold eff_bind, lift; simpl. now destruct (k a).
Qed.

Lemma eff_bind_lift_Raise {A R : Type} (e : exn) (k : A -> eff R) :
  eff_bind (lift (Raise e)) k = ([], Raise e).
Proof. reflexivity. Qed.

Lemma filter_none {A : Type} (p : A -> bool) (xs : list A) :
  (forall x, In x xs -> p x = false) -> filter p xs = [].
Proof.
  induction xs as [|x xs IH]; intros H; simpl; [reflexivity|].
  rewrite (H x (or_introl eq_refl)). apply IH. intros y Hy. apply H. now right.
Qed.

Lemma strs_serializable (l : list string) : json_serializable (strs l) = true.
Proof.
  unfold strs; simpl. induction l as [|x l IH]; simpl; auto.
Qed.

Lemma has_required_lookup (d : list (string * value)) (f : string) :
  has_required d -> In f required_fields -> exists v, dict_lookup f d = Some v.
Proof.
  intros H Hin. specialize (H f Hin). unfold dict_has in H.
  destruct (dict_lookup f d) as [v|]; [now exists v | discriminate].
Qed.

Lemma has_required_absent (d : list (string * value)) :
  has_required d <-> absent_keys d = [].
Proof.
  unfold has_required, absent_keys. split.
  - intros H. apply filter_none. intros f Hf. now rewrite (H f Hf).
  - intros H f Hf. destruct (dict_has d f) eqn:E; [reflexivity|].
    assert (In f (filter (fun g => negb (dict_has d g)) required_fields)) as Hin
      by (apply filter_In; split; [exact Hf | now rewrite E]).
    rewrite H in Hin. destruct Hin.
Qed.

Section Flow.
Context {B : Builtins}.
Variable env : Collaborators.

Lemma missing_fields_dict (d : list (string * value)) :
  missing_fields (VDict d) = Ok (absent_keys d).
Proof. reflexivity. Qed.

Lemma truthy_has_required (d : list (string * value)) :
  has_required d -> truthy (VDict d) = true.
Proof.
  intros H. destruct d; [|reflexivity].
  specialize (H "anomaly_id" (or_introl eq_refl)). discriminate.
Qed.

(** A request that is not the preflight is answered by the [try] body and,
    when it raises, by the matching [except] clause. *)
Lemma analyze_anomaly_dispatch (request : Request) :
  method request <> "OPTIONS" ->
  analyze_anomaly env request =
    (fst (try_block env (get_json request)),
     match snd (try_block env (get_json request)) with
     | Ok response => response
     | Raise e => if isinstance_ValueError e then validation_error e
                  else internal_server_error e
     end).
Proof.
  intros Hm. unfold analyze_anomaly.
  apply String.eqb_neq in Hm. rewrite Hm.
  destruct (snd (try_block env (get_json request))) as [r|e]; [reflexivity|].
  now destruct (isinstance_ValueError e).
Qed.

(** With every required key present, the [try] body goes on to build the
    [Anomaly], run the analyzer and serialize its answer. *)
Lemma try_block_has_required (d : list (string * value)) :
  has_required d ->
  try_block env (VDict d) =
    (anomaly <~ lift (construct_anomaly (VDict d)) ;;
     analysis <~ run_analyzer env anomaly ;;
     lift (respond (response_data analysis) 200)).
Proof.
  intros H. unfold try_block.
  rewrite (truthy_has_required d H). cbn [negb].
  rewrite missing_fields_dict, eff_bind_lift_Ok.
  apply has_required_absent in H. rewrite H. reflexivity.
Qed.

(** Construction failed: nothing was called and the exception decides the
    envelope. *)
Lemma rejected_by_construction (request : Request) (d : list (string * value)) (e : exn) :
  method request <> "OPTIONS" ->
  get_json request = VDict d ->
  has_required d ->
  construct_anomaly (VDict d) = Raise e ->
  analyze_anomaly env request =
    ([], if isinstance_ValueError e then validation_error e else internal_server_error e).
Proof.
  intros Hm Hj Hreq Hc.
  rewrite (analyze_anomaly_dispatch request Hm), Hj.
  rewrite (try_block_has_required d Hreq), Hc. reflexivity.
Qed.

(** Construction succeeded: the outcome is that of the analyzer. *)
Lemma try_block_constructed (d : list (string * value)) (a : Anomaly.t) :
  has_required d ->
  construct_anomaly (VDict d) = Ok a ->
  try_block env (VDict d) =
    (analysis <~ run_analyzer env a ;; lift (respond (response_data analysis) 200)).
Proof.
  intros Hreq Hc. rewrite (try_block_has_required d Hreq), Hc.
  now rewrite eff_bind_lift_Ok.
Qed.

End Flow.

(* ================================================================= *)
(** ** Missing required fields *)

Lemma required_fields_NoDup : NoDup required_fields.
Proof.
  unfold required_fields.
  repeat (constructor; [simpl; intuition discriminate|]). constructor.
Qed.

Lemma absent_keys_spec (d : list (string * value)) (f : string) :
  In f (absent_keys d) <-> In f required_fields /\ dict_lookup f d = None.
Proof.
  unfold absent_keys. rewrite filter_In. unfold dict_has.
  destruct (dict_lookup f d); simpl; intuition discriminate.
Qed.

Section MissingFields.
Context {B : Builtins}.
Variable env : Collaborators.

(** C1, as amended: a request that is not the preflight and whose JSON body
    is a non-empty object lacking at least one of the ten required keys is
    answered, without any call to the collaborators, by the status-400
    envelope [{error: "Missing required fields", missing, required}].
    [missing] is the required list, in its own order, with the keys the
    object has left out: it is not empty, holds exactly the absent required
    keys, each once, and in the order of the required list. [required] is
    the full list. *)
Theorem missing_fields_reported (request : Request) (d : list (string * value)) :
  method request <> "OPTIONS" ->
  get_json request = VDict d ->
  d <> [] ->
  (exists f, In f required_fields /\ dict_lookup f d = None) ->
  let missing := filter (fun f => negb (dict_has d f)) required_fields in
  analyze_anomaly env request =
    ([], mk_response
           (Dumps (VDict [ ("error", VStr "Missing required fields");
                           ("missing", strs missing);
                           ("required", strs required_fields) ]))
           400 cors_headers)
  /\ missing <> []
  /\ (forall f, In f missing <-> In f required_fields /\ dict_lookup f d = None)
  /\ NoDup missing.
Proof.
  intros Hm Hj Hd [f Hf] missing.
  change missing with (absent_keys d). clear missing.
  apply absent_keys_spec in Hf.
  split; [|split; [|split]].
  - rewrite (analyze_anomaly_dispatch env request Hm), Hj.
    unfold try_block.
    assert (truthy (VDict d) = true) as -> by (destruct d; [contradiction|reflexivity]).
    cbn [negb]. rewrite missing_fields_dict, eff_bind_lift_Ok.
    destruct (absent_keys d) as [|m ms] eqn:E; [destruct Hf|].
    cbn [truthy strs map]. unfold respond, dumps.
    cbn [json_serializable forallb snd].
    rewrite !strs_serializable. reflexivity.
  - intros E. rewrite E in Hf. destruct Hf.
  - intros g. apply absent_keys_spec.
  - apply NoDup_filter, required_fields_NoDup.
Qed.

End MissingFields.

(** C1, the witness: the literal request without [metric_type] and
    [severity]; the two names are reported in the order of the required
    list. *)
Lemma missing_fields_reported_witness :
  analyze_anomaly (B := Fixture.reference) (Fixture.answering None)
    (Fixture.post (VDict (filter (fun kv => negb (String.eqb (fst kv) "severity")
                                            && negb (String.eqb (fst kv) "metric_type"))
                                 Fixture.literal_fields))) =
    ([], mk_response
           (Dumps (VDict [ ("error", VStr "Missing required fields");
                           ("missing", strs ["metric_type"; "severity"]);
                           ("required", strs required_fields) ]))
           400 cors_headers).
Proof.
  refine (proj1 (missing_fields_reported (B := Fixture.reference) (Fixture.answering None)
                   (Fixture.post (VDict (filter
                      (fun kv => negb (String.eqb (fst kv) "severity")
                                 && negb (String.eqb (fst kv) "metric_type"))
                      Fixture.literal_fields)))
                   (filter (fun kv => negb (String.eqb (fst kv) "severity")
                                      && negb (String.eqb (fst kv) "metric_type"))
                           Fixture.literal_fields)
                   _ _ _ _)).
  - discriminate.
  - reflexivity.
  - discriminate.
  - exists "severity". split; [simpl; tauto | reflexivity].
Defined.

(** C1, the counterexample: the empty object lacks all ten required keys,
    yet the handler answers it with the [Invalid request] envelope, which has
    neither a [missing] nor a [required] entry. *)
Lemma empty_object_is_invalid_request :
  let response :=
    snd (analyze_anomaly (B := Fixture.reference) (Fixture.answering None)
                         (Fixture.post (VDict []))) in
  absent_keys [] = required_fields
  /\ status response = 400%Z
  /\ envelope_field "error" response = Some (VStr "Invalid request")
  /\ envelope_field "missing" response = None
  /\ envelope_field "required" response = None.
Proof. repeat split. Qed.

(* ================================================================= *)
(** ** Construction of the [Anomaly] *)

(** Discharges [has_required] on a concrete object. *)
Ltac required_by_lookup :=
  let f := fresh "f" in
  let H := fresh "H" in
  intros f H; simpl in H;
  repeat (destruct H as [<- | H]; [reflexivity|]); destruct H.

(** Discharges a property of each of the four numeric keys of a concrete
    object. *)
Ltac each_numeric tac :=
  let f := fresh "f" in
  let H := fresh "H" in
  intros f H; simpl in H;
  repeat (destruct H as [<- | H]; [tac|]); destruct H.

Section Construction.
Context {B : Builtins}.

Lemma getitem_lookup (d : list (string * value)) (k : string) (v : value) :
  dict_lookup k d = Some v -> getitem (VDict d) k = Ok v.
Proof. intros H. unfold getitem. now rewrite H. Qed.

Lemma AnomalyType_call_invalid (v : string) :
  ~ In v AnomalyType_values ->
  AnomalyType_call (VStr v) = Raise (ValueError (repr (VStr v) ++ " is not a valid AnomalyType")).
Proof.
  intros H. unfold AnomalyType_call, Enum_call, AnomalyType_members. simpl.
  repeat match goal with
  | |- context [String.eqb v ?s] =>
      destruct (String.eqb_spec v s) as [->|_]; [exfalso; apply H; simpl; tauto|]
  end.
  reflexivity.
Qed.

Lemma Severity_call_invalid (v : string) :
  ~ In v Severity_values ->
  Severity_call (VStr v) = Raise (ValueError (repr (VStr v) ++ " is not a valid Severity")).
Proof.
  intros H. unfold Severity_call, Enum_call, Severity_members. simpl.
  repeat match goal with
  | |- context [String.eqb v ?s] =>
      destruct (String.eqb_spec v s) as [->|_]; [exfalso; apply H; simpl; tauto|]
  end.
  reflexivity.
Qed.

(** Calling an enumeration on the value of one of its members returns that
    member. *)
Lemma AnomalyType_call_value (m : AnomalyType) :
  AnomalyType_call (VStr (AnomalyType_value m)) = Ok m.
Proof. now destruct m. Qed.

Lemma Severity_call_value (m : Severity) :
  Severity_call (VStr (Severity_value m)) = Ok m.
Proof. now destruct m. Qed.

(** The steps of [construct_anomaly] up to, and excluding, the first
    [float] call. *)
Lemma construct_anomaly_timestamp (d : list (string * value)) (s : string) (t : datetime) :
  has_required d ->
  dict_lookup "detected_at" d = Some (VStr s) ->
  fromisoformat (str_replace1 "Z"%char "+00:00" s) = inl t ->
  exists anomaly_id metric_name metric_type,
    dict_lookup "anomaly_id" d = Some anomaly_id
    /\ dict_lookup "metric_name" d = Some metric_name
    /\ dict_lookup "metric_type" d = Some metric_type
    /\ construct_anomaly (VDict d) =
       (v1 <- getitem (VDict d) "current_value" ;;
        current_value <- float_ v1 ;;
        v2 <- getitem (VDict d) "baseline_value" ;;
        baseline_value <- float_ v2 ;;
        v3 <- getitem (VDict d) "deviation_sigma" ;;
        deviation_sigma <- float_ v3 ;;
        v4 <- getitem (VDict d) "deviation_percentage" ;;
        deviation_percentage <- float_ v4 ;;
        v5 <- getitem (VDict d) "anomaly_type" ;;
        anomaly_type <- AnomalyType_call v5 ;;
        v6 <- getitem (VDict d) "severity" ;;
        severity <- Severity_call v6 ;;
        confidence <- get (VDict d) "confidence" (VFloat 0.8%float) ;;
        affected_resources <- get (VDict d) "affected_resources" (VList []) ;;
        time_window <- get (VDict d) "time_window" (VDict []) ;;
        related_metrics <- get (VDict d) "related_metrics" (VDict []) ;;
        metadata <- get (VDict d) "metadata" (VDict []) ;;
        Ok (Anomaly.mk anomaly_id t metric_name metric_type
              current_value baseline_value deviation_sigma deviation_percentage
              anomaly_type severity confidence affected_resources time_window
              related_metrics metadata)).
Proof.
  intros Hreq Hs Ht.
  destruct (has_required_lookup d "anomaly_id" Hreq) as [a Ha]; [simpl; tauto|].
  destruct (has_required_lookup d "metric_name" Hreq) as [n Hn]; [simpl; tauto|].
  destruct (has_required_lookup d "metric_type" Hreq) as [y Hy]; [simpl; tauto|].
  exists a, n, y. repeat split; try assumption.
  unfold construct_anomaly.
  rewrite (getitem_lookup d _ _ Ha), (getitem_lookup d _ _ Hs).
  rewrite (getitem_lookup d _ _ Hn), (getitem_lookup d _ _ Hy).
  cbn [bind replace_Z]. unfold datetime_fromisoformat. rewrite Ht. reflexivity.
Qed.

End Construction.

(** Steps [construct_anomaly] over the lookup and [float] call of a key that
    coerces. *)
Ltac step_float H :=
  let v := fresh "v" in
  let x := fresh "x" in
  let Hl := fresh "Hl" in
  let Hx := fresh "Hx" in
  destruct H as (v & x & Hl & Hx);
  rewrite (getitem_lookup _ _ _ Hl); cbn [bind]; rewrite Hx; cbn [bind].

Section Rejections.
Context {B : Builtins}.

Lemma accepted_dict (request_json : value) (a : Anomaly.t) :
  accepted request_json a ->
  exists d, request_json = VDict d /\ has_required d /\ construct_anomaly (VDict d) = Ok a.
Proof.
  intros (_ & Hmiss & Hc).
  destruct request_json as [| | | | |l|d|]; try discriminate Hc.
  exists d. repeat split; [|exact Hc].
  apply has_required_absent. rewrite missing_fields_dict in Hmiss. congruence.
Qed.

Lemma construct_anomaly_bad_number (d : list (string * value))
    (pre post : list string) (f s : string) :
  has_required d ->
  timestamp_parses d ->
  numeric_fields = (pre ++ f :: post)%list ->
  (forall g, In g pre -> coerces d g) ->
  dict_lookup f d = Some (VStr s) ->
  float_of_str s = None ->
  construct_anomaly (VDict d) =
    Raise (ValueError ("could not convert string to float: " ++ repr (VStr s))).
Proof.
  intros Hreq (s0 & t & Hs & Ht) Hsplit Hpre Hf Hbad.
  destruct (construct_anomaly_timestamp d s0 t Hreq Hs Ht) as (a & n & y & _ & _ & _ & ->).
  assert (float_ (VStr s) =
          Raise (ValueError ("could not convert string to float: " ++ repr (VStr s)))) as Hraise
    by (unfold float_; now rewrite Hbad).
  unfold numeric_fields in Hsplit.
  destruct pre as [|p1 [|p2 [|p3 [|p4 pre]]]]; simpl in Hsplit;
    injection Hsplit as; subst.
  - rewrite (getitem_lookup _ _ _ Hf); cbn [bind]. now rewrite Hraise.
  - pose proof (Hpre _ (or_introl eq_refl)) as H1. step_float H1.
    rewrite (getitem_lookup _ _ _ Hf); cbn [bind]. now rewrite Hraise.
  - pose proof (Hpre _ (or_introl eq_refl)) as H1.
    pose proof (Hpre _ (or_intror (or_introl eq_refl))) as H2.
    step_float H1. step_float H2.
    rewrite (getitem_lookup _ _ _ Hf); cbn [bind]. now rewrite Hraise.
  - pose proof (Hpre _ (or_introl eq_refl)) as H1.
    pose proof (Hpre _ (or_intror (or_introl eq_refl))) as H2.
    pose proof (Hpre _ (or_intror (or_intror (or_introl eq_refl)))) as H3.
    step_float H1. step_float H2. step_float H3.
    rewrite (getitem_lookup _ _ _ Hf); cbn [bind]. now rewrite Hraise.
  - destruct pre; discriminate.
Qed.

(** With the timestamp parsed and the four numbers coerced, construction
    reaches the two enumeration calls. *)
Lemma construct_anomaly_enums (d : list (string * value)) :
  has_required d ->
  timestamp_parses d ->
  (forall f, In f numeric_fields -> coerces d f) ->
  exists k : AnomalyType -> Severity -> result Anomaly.t,
    construct_anomaly (VDict d) =
      (v5 <- getitem (VDict d) "anomaly_type" ;;
       anomaly_type <- AnomalyType_call v5 ;;
       v6 <- getitem (VDict d) "severity" ;;
       severity <- Severity_call v6 ;;
       k anomaly_type severity).
Proof.
  intros Hreq (s0 & t & Hs & Ht) Hnum.
  destruct (construct_anomaly_timestamp d s0 t Hreq Hs Ht) as (a & n & y & _ & _ & _ & ->).
  pose proof (Hnum "current_value") as H1.
  pose proof (Hnum "baseline_value") as H2.
  pose proof (Hnum "deviation_sigma") as H3.
  pose proof (Hnum "deviation_percentage") as H4.
  destruct H1 as (v1 & x1 & Hl1 & Hx1); [simpl; tauto|].
  destruct H2 as (v2 & x2 & Hl2 & Hx2); [simpl; tauto|].
  destruct H3 as (v3 & x3 & Hl3 & Hx3); [simpl; tauto|].
  destruct H4 as (v4 & x4 & Hl4 & Hx4); [simpl; tauto|].
  rewrite (getitem_lookup _ _ _ Hl1); cbn [bind]; rewrite Hx1; cbn [bind].
  rewrite (getitem_lookup _ _ _ Hl2); cbn [bind]; rewrite Hx2; cbn [bind].
  rewrite (getitem_lookup _ _ _ Hl3); cbn [bind]; rewrite Hx3; cbn [bind].
  rewrite (getitem_lookup _ _ _ Hl4); cbn [bind]; rewrite Hx4; cbn [bind].
  eexists (fun anomaly_type severity => _). reflexivity.
Qed.

End Rejections.

(* ================================================================= *)
(** ** Error envelopes *)

(** A text occurs in every text that ends with one in which it occurs. *)
Lemma str_in_app_r (sub a b : string) :
  str_in sub b = true -> str_in sub (a ++ b) = true.
Proof.
  intros H. induction a as [|c a IH]; [exact H|].
  cbn [append str_in]. rewrite IH. apply orb_true_r.
Qed.

Section Envelopes.
Context {B : Builtins}.
Variable env : Collaborators.

(** C2, as amended: in a request that is valid up to that point (every
    required key present, [detected_at] parsed, the four numbers coerced), an
    [anomaly_type] string outside the enumeration, or -- the anomaly type
    being valid -- a [severity] string outside its enumeration, makes
    construction fail before any collaborator is called, and the handler
    answers with the status-400 envelope [{error: "Validation error",
    message}]; no member is substituted. The message is
    [<repr of the text> is not a valid <Enum>]: it quotes the rejected text
    and contains the name of the enumeration class, [AnomalyType] or
    [Severity]; the handler adds nothing to it, the request key included. *)
Theorem invalid_enum_rejected (request : Request) (d : list (string * value)) :
  method request <> "OPTIONS" ->
  get_json request = VDict d ->
  has_required d ->
  timestamp_parses d ->
  (forall f, In f numeric_fields -> coerces d f) ->
  (forall v,
      dict_lookup "anomaly_type" d = Some (VStr v) ->
      ~ In v AnomalyType_values ->
      analyze_anomaly env request =
        ([], mk_response
               (Dumps (VDict [ ("error", VStr "Validation error");
                               ("message", VStr (repr (VStr v) ++ " is not a valid AnomalyType")) ]))
               400 cors_headers))
  /\ (forall x m v,
      dict_lookup "anomaly_type" d = Some x ->
      AnomalyType_call x = Ok m ->
      dict_lookup "severity" d = Some (VStr v) ->
      ~ In v Severity_values ->
      analyze_anomaly env request =
        ([], mk_response
               (Dumps (VDict [ ("error", VStr "Validation error");
                               ("message", VStr (repr (VStr v) ++ " is not a valid Severity")) ]))
               400 cors_headers))
  /\ (forall v,
      str_in "AnomalyType" (repr (VStr v) ++ " is not a valid AnomalyType") = true
      /\ str_in "Severity" (repr (VStr v) ++ " is not a valid Severity") = true).
Proof.
  intros Hm Hj Hreq Hts Hnum.
  destruct (construct_anomaly_enums d Hreq Hts Hnum) as (k & Hk).
  split; [|split].
  - intros v Hv Hout.
    rewrite (rejected_by_construction env request d
               (ValueError (repr (VStr v) ++ " is not a valid AnomalyType")) Hm Hj Hreq);
      [reflexivity|].
    rewrite Hk, (getitem_lookup _ _ _ Hv). cbn [bind].
    now rewrite (AnomalyType_call_invalid v Hout).
  - intros x m v Hx Hcall Hv Hout.
    rewrite (rejected_by_construction env request d
               (ValueError (repr (VStr v) ++ " is not a valid Severity")) Hm Hj Hreq);
      [reflexivity|].
    rewrite Hk, (getitem_lookup _ _ _ Hx). cbn [bind]. rewrite Hcall. cbn [bind].
    rewrite (getitem_lookup _ _ _ Hv). cbn [bind].
    now rewrite (Severity_call_invalid v Hout).
  - intros v. split; apply str_in_app_r; reflexivity.
Qed.

(** How an exception of the analyzer invocation ([get_config], the agent
    constructor or [analyze_anomaly]) is answered on an accepted request:
    never by a 2xx response, and by the [except] clause its class selects,
    the status-500 envelope [{error: "Internal server error", message,
    type}] outside [ValueError], the status-400 envelope
    [{error: "Validation error", message}] for [ValueError] and its
    subclasses. *)
Theorem engine_failure_reported (request : Request) (a : Anomaly.t) (e : exn) :
  method request <> "OPTIONS" ->
  accepted (get_json request) a ->
  snd (run_analyzer env a) = Raise e ->
  let response := snd (analyze_anomaly env request) in
  ~ is_2xx (status response)
  /\ (isinstance_ValueError e = false ->
      response =
        mk_response (Dumps (VDict [ ("error", VStr "Internal server error");
                                    ("message", VStr (exn_str e));
                                    ("type", VStr (exn_type e)) ]))
                    500 cors_headers)
  /\ (isinstance_ValueError e = true ->
      response =
        mk_response (Dumps (VDict [ ("error", VStr "Validation error");
                                    ("message", VStr (exn_str e)) ]))
                    400 cors_headers).
Proof.
  intros Hm Hacc He response.
  destruct (accepted_dict _ _ Hacc) as (d & Hj & Hreq & Hc).
  assert (response = if isinstance_ValueError e then validation_error e
                     else internal_server_error e) as Hr.
  { unfold response. rewrite (analyze_anomaly_dispatch env request Hm), Hj.
    rewrite (try_block_constructed env d a Hreq Hc).
    unfold eff_bind. rewrite He. reflexivity. }
  rewrite Hr. unfold is_2xx.
  destruct (isinstance_ValueError e); repeat split;
    try discriminate; try reflexivity; cbn; lia.
Qed.

(** C4, as amended: when [detected_at] parses and the numeric keys before
    [f] (in the order [current_value], [baseline_value], [deviation_sigma],
    [deviation_percentage]) coerce, a text under [f] that [float] cannot
    parse is answered, before any collaborator is called, by the status-400
    envelope [{error: "Validation error", message}], whose message is
    [could not convert string to float: <repr of the text>]: it quotes the
    offending value, not the key. *)
Theorem unparsable_number_rejected (request : Request) (d : list (string * value))
    (pre post : list string) (f s : string) :
  method request <> "OPTIONS" ->
  get_json request = VDict d ->
  has_required d ->
  timestamp_parses d ->
  numeric_fields = (pre ++ f :: post)%list ->
  (forall g, In g pre -> coerces d g) ->
  dict_lookup f d = Some (VStr s) ->
  float_of_str s = None ->
  analyze_anomaly env request =
    ([], mk_response
           (Dumps (VDict [ ("error", VStr "Validation error");
                           ("message", VStr ("could not convert string to float: "
                                             ++ repr (VStr s))) ]))
           400 cors_headers).
Proof.
  intros Hm Hj Hreq Hts Hsplit Hpre Hf Hbad.
  rewrite (rejected_by_construction env request d
             (ValueError ("could not convert string to float: " ++ repr (VStr s)))
             Hm Hj Hreq);
    [reflexivity|].
  now apply (construct_anomaly_bad_number d pre post f s).
Qed.

End Envelopes.

(** The literal request is accepted and yields [literal_anomaly]. *)
Lemma literal_accepted :
  accepted (B := Fixture.reference) Fixture.literal Fixture.literal_anomaly.
Proof. repeat split. Qed.

(** C2, the counterexample: for the literal request with
    ["severity": "extreme"] the message is
    ['extreme' is not a valid Severity], in which the key [severity] does
    not occur; with an [anomaly_type] outside the enumeration the message
    does not contain [anomaly_type] either; and when [current_value] is null
    as well, the invalid severity is answered by the status-500 envelope of
    the [TypeError] that [float] raises first. *)
Lemma invalid_enum_key_not_named :
  let severity_response :=
    snd (analyze_anomaly (B := Fixture.reference) (Fixture.answering None)
           (Fixture.post (Fixture.literal_with "severity" (VStr "extreme")))) in
  let type_response :=
    snd (analyze_anomaly (B := Fixture.reference) (Fixture.answering None)
           (Fixture.post (Fixture.literal_with "anomaly_type" (VStr "network")))) in
  let null_response :=
    snd (analyze_anomaly (B := Fixture.reference) (Fixture.answering None)
           (Fixture.post (VDict (dict_set "current_value" VNone
                                   (dict_set "severity" (VStr "extreme")
                                      Fixture.literal_fields))))) in
  (envelope_field "message" severity_response
   = Some (VStr "'extreme' is not a valid Severity")
   /\ str_in "severity" "'extreme' is not a valid Severity" = false)
  /\ (envelope_field "message" type_response
      = Some (VStr "'network' is not a valid AnomalyType")
      /\ str_in "anomaly_type" "'network' is not a valid AnomalyType" = false)
  /\ (status null_response = 500%Z
      /\ envelope_field "error" null_response = Some (VStr "Internal server error")
      /\ envelope_field "type" null_response = Some (VStr "TypeError")).
Proof. repeat split. Qed.

(** C2, the witness: the literal request with an [anomaly_type] outside the
    enumeration, and the literal request with ["severity": "extreme"]. *)
Lemma invalid_enum_rejected_witness :
  analyze_anomaly (B := Fixture.reference) (Fixture.answering None)
      (Fixture.post (Fixture.literal_with "anomaly_type" (VStr "network"))) =
    ([], mk_response
           (Dumps (VDict [ ("error", VStr "Validation error");
                           ("message", VStr "'network' is not a valid AnomalyType") ]))
           400 cors_headers)
  /\ analyze_anomaly (B := Fixture.reference) (Fixture.answering None)
      (Fixture.post (Fixture.literal_with "severity" (VStr "extreme"))) =
    ([], mk_response
           (Dumps (VDict [ ("error", VStr "Validation error");
                           ("message", VStr "'extreme' is not a valid Severity") ]))
           400 cors_headers).
Proof.
  split.
  - refine (proj1 (invalid_enum_rejected (B := Fixture.reference) (Fixture.answering None)
                     (Fixture.post (Fixture.literal_with "anomaly_type" (VStr "network")))
                     (dict_set "anomaly_type" (VStr "network") Fixture.literal_fields)
                     _ _ _ _ _) "network" _ _).
    + discriminate.
    + reflexivity.
    + required_by_lookup.
    + exists "2024-12-16T14:05:30Z", Fixture.literal_time. split; reflexivity.
    + each_numeric ltac:(eexists; eexists; split; reflexivity).
    + reflexivity.
    + simpl. intuition discriminate.
  - refine (proj1 (proj2 (invalid_enum_rejected (B := Fixture.reference)
                     (Fixture.answering None)
                     (Fixture.post (Fixture.literal_with "severity" (VStr "extreme")))
                     (dict_set "severity" (VStr "extreme") Fixture.literal_fields)
                     _ _ _ _ _)) (VStr "stability") STABILITY "extreme" _ _ _ _).
    + discriminate.
    + reflexivity.
    + required_by_lookup.
    + exists "2024-12-16T14:05:30Z", Fixture.literal_time. split; reflexivity.
    + each_numeric ltac:(eexists; eexists; split; reflexivity).
    + reflexivity.
    + reflexivity.
    + reflexivity.
    + simpl. intuition discriminate.
Defined.

(** An instance: the literal request and an engine that raises a
    [RuntimeError]. *)
Lemma engine_failure_reported_witness :
  let e := mk_exn "RuntimeError" false "model unavailable" in
  let response :=
    snd (analyze_anomaly (B := Fixture.reference) (Fixture.failing e)
                         (Fixture.post Fixture.literal)) in
  ~ is_2xx (status response)
  /\ (isinstance_ValueError e = false ->
      response =
        mk_response (Dumps (VDict [ ("error", VStr "Internal server error");
                                    ("message", VStr (exn_str e));
                                    ("type", VStr (exn_type e)) ]))
                    500 cors_headers)
  /\ (isinstance_ValueError e = true ->
      response =
        mk_response (Dumps (VDict [ ("error", VStr "Validation error");
                                    ("message", VStr (exn_str e)) ]))
                    400 cors_headers).
Proof.
  intros e.
  apply (engine_failure_reported (B := Fixture.reference) (Fixture.failing e)
           (Fixture.post Fixture.literal) Fixture.literal_anomaly e).
  - discriminate.
  - exact literal_accepted.
  - reflexivity.
Defined.

(** C3, the defect at a concrete request: the literal request is accepted
    and the engine is invoked; when it raises a [RuntimeError] the handler
    answers with the status-500 [Internal server error] envelope, but when
    it raises a [ValueError] the handler answers with the status-400
    [Validation error] envelope, which has no [type] entry. *)
Lemma engine_ValueError_is_validation_error :
  let e := ValueError "malformed model output" in
  let response :=
    snd (analyze_anomaly (B := Fixture.reference) (Fixture.failing e)
                         (Fixture.post Fixture.literal)) in
  let sibling :=
    snd (analyze_anomaly (B := Fixture.reference)
           (Fixture.failing (mk_exn "RuntimeError" false "malformed model output"))
           (Fixture.post Fixture.literal)) in
  accepted (B := Fixture.reference) Fixture.literal Fixture.literal_anomaly
  /\ fst (analyze_anomaly (B := Fixture.reference) (Fixture.failing e)
            (Fixture.post Fixture.literal))
     = [Call_get_config; Call_AnomalyAnalyzerAgent;
        Call_analyze_anomaly Fixture.literal_anomaly]
  /\ snd (run_analyzer (Fixture.failing e) Fixture.literal_anomaly) = Raise e
  /\ status response = 400%Z
  /\ envelope_field "error" response = Some (VStr "Validation error")
  /\ envelope_field "message" response = Some (VStr "malformed model output")
  /\ envelope_field "type" response = None
  /\ status sibling = 500%Z
  /\ envelope_field "error" sibling = Some (VStr "Internal server error")
  /\ envelope_field "type" sibling = Some (VStr "RuntimeError").
Proof. repeat split. Qed.

(** C4, the witness: the literal request with ["baseline_value": "abc"]. *)
Lemma unparsable_number_rejected_witness :
  analyze_anomaly (B := Fixture.reference) (Fixture.answering None)
      (Fixture.post (Fixture.literal_with "baseline_value" (VStr "abc"))) =
    ([], mk_response
           (Dumps (VDict [ ("error", VStr "Validation error");
                           ("message", VStr "could not convert string to float: 'abc'") ]))
           400 cors_headers).
Proof.
  apply (unparsable_number_rejected (B := Fixture.reference) (Fixture.answering None)
           (Fixture.post (Fixture.literal_with "baseline_value" (VStr "abc")))
           (dict_set "baseline_value" (VStr "abc") Fixture.literal_fields)
           ["current_value"] ["deviation_sigma"; "deviation_percentage"]
           "baseline_value" "abc").
  - discriminate.
  - reflexivity.
  - required_by_lookup.
  - exists "2024-12-16T14:05:30Z", Fixture.literal_time. split; reflexivity.
  - reflexivity.
  - intros g [<- | []]. eexists; eexists; split; reflexivity.
  - reflexivity.
  - reflexivity.
Defined.

(** C4, the counterexample: with ["current_value": null] the handler answers
    500 [Internal server error] (the [float] call raises [TypeError]); with
    ["current_value": "abc"] it answers 400, and the message does not
    contain the key [current_value]. *)
Lemma bad_number_not_named :
  let null_response :=
    snd (analyze_anomaly (B := Fixture.reference) (Fixture.answering None)
           (Fixture.post (Fixture.literal_with "current_value" VNone))) in
  let text_response :=
    snd (analyze_anomaly (B := Fixture.reference) (Fixture.answering None)
           (Fixture.post (Fixture.literal_with "current_value" (VStr "abc")))) in
  (status null_response = 500%Z
   /\ envelope_field "error" null_response = Some (VStr "Internal server error")
   /\ envelope_field "type" null_response = Some (VStr "TypeError"))
  /\ (status text_response = 400%Z
      /\ envelope_field "message" text_response =
         Some (VStr "could not convert string to float: 'abc'")
      /\ str_in "current_value" "could not convert string to float: 'abc'" = false).
Proof. repeat split. Qed.

(* ================================================================= *)
(** ** The success envelope *)

Section Success.
Context {B : Builtins}.
Variable env : Collaborators.

(** A status-200 response can only come from the end of the [try] body: the
    validator accepted the request, the analyzer returned an analysis, and
    the body is [json.dumps(response_data)]. *)
Lemma success_inversion (request : Request) :
  status (snd (analyze_anomaly env request)) = 200%Z ->
  exists a analysis,
    accepted (get_json request) a
    /\ snd (run_analyzer env a) = Ok analysis
    /\ fst (analyze_anomaly env request) = fst (run_analyzer env a)
    /\ body (snd (analyze_anomaly env request)) = Dumps (VDict (response_data analysis)).
Proof.
  unfold analyze_anomaly.
  destruct (String.eqb (method request) "OPTIONS"); [discriminate|].
  unfold try_block, accepted.
  destruct (truthy (get_json request)) eqn:Ht; cbn [negb]; [|discriminate].
  destruct (missing_fields (get_json request)) as [ms|e] eqn:Hms.
  2:{ rewrite eff_bind_lift_Raise. cbn [snd fst].
      destruct (isinstance_ValueError e); discriminate. }
  rewrite eff_bind_lift_Ok.
  destruct ms as [|m ms].
  2:{ cbn [truthy strs map]. unfold respond, dumps.
      cbn [json_serializable forallb snd]. rewrite !strs_serializable.
      discriminate. }
  cbn [truthy strs map].
  destruct (construct_anomaly (get_json request)) as [a|e] eqn:Hc.
  2:{ rewrite eff_bind_lift_Raise. cbn [snd fst].
      destruct (isinstance_ValueError e); discriminate. }
  rewrite eff_bind_lift_Ok. unfold eff_bind.
  destruct (run_analyzer env a) as [tr [analysis|e]] eqn:Hrun; cbn [snd fst].
  2:{ destruct (isinstance_ValueError e); discriminate. }
  unfold lift, respond, dumps.
  destruct (json_serializable (VDict (response_data analysis))); cbn [bind snd fst].
  - intros _. exists a, analysis. rewrite app_nil_r, Hrun. repeat split.
  - discriminate.
Qed.

(** The keys every [response_data] dictionary has. *)
Lemma response_data_fields (analysis : AnomalyAnalysis.t) :
  let d := response_data analysis in
  dict_lookup "success" d = Some (VBool true)
  /\ dict_lookup "anomaly_id" d = Some (Anomaly.anomaly_id (AnomalyAnalysis.anomaly analysis))
  /\ (exists root_cause, dict_lookup "root_cause" d = Some (VDict root_cause))
  /\ (exists recommendations,
         dict_lookup "recommendations" d = Some (VList recommendations)
         /\ List.length recommendations
            = List.length (AnomalyAnalysis.recommendations analysis))
  /\ dict_lookup "analyzed_at" d
     = Some (VStr (isoformat (AnomalyAnalysis.analyzed_at analysis) ++ "Z"))
  /\ dict_lookup "ai_model_used" d = Some (VStr (AnomalyAnalysis.ai_model_used analysis))
  /\ dict_lookup "analysis_duration_ms" d
     = Some (VInt (AnomalyAnalysis.analysis_duration_ms analysis))
  /\ dict_lookup "saved_to_bigquery" d = Some (VBool true).
Proof.
  unfold response_data.
  destruct (AnomalyAnalysis.summary analysis) as [s|]; cbn;
    repeat split; eauto using length_map.
Qed.

(** The summary block is present exactly when the analysis has a summary,
    and then it carries the summary's five strings. *)
Lemma response_data_summary (analysis : AnomalyAnalysis.t) :
  dict_lookup "human_readable_summary" (response_data analysis)
  = option_map HumanReadableSummary.as_dict (AnomalyAnalysis.summary analysis).
Proof.
  unfold response_data.
  now destruct (AnomalyAnalysis.summary analysis) as [s|].
Qed.

Lemma to_dict_summary (analysis : AnomalyAnalysis.t) (d : list (string * value)) :
  AnomalyAnalysis.to_dict analysis = Ok (VDict d) ->
  dict_lookup "summary" d
  = option_map HumanReadableSummary.as_dict (AnomalyAnalysis.summary analysis).
Proof.
  unfold AnomalyAnalysis.to_dict.
  destruct (Anomaly.to_dict (AnomalyAnalysis.anomaly analysis)) as [ad|e];
    cbn [bind]; [|discriminate].
  destruct (AnomalyAnalysis.summary analysis) as [s|]; cbn;
    intros H; injection H as <-; reflexivity.
Qed.

(** [AnomalyAnalysis.to_dict] returns a dictionary as soon as the wrapped
    [Anomaly] serializes, and files that serialization under [anomaly]. *)
Lemma to_dict_returns (analysis : AnomalyAnalysis.t) (anomaly_dict : value) :
  Anomaly.to_dict (AnomalyAnalysis.anomaly analysis) = Ok anomaly_dict ->
  exists d, AnomalyAnalysis.to_dict analysis = Ok (VDict d)
            /\ dict_lookup "anomaly" d = Some anomaly_dict.
Proof.
  intros H. unfold AnomalyAnalysis.to_dict. rewrite H. cbn [bind].
  eexists. split; [reflexivity|].
  now destruct (AnomalyAnalysis.summary analysis).
Qed.

End Success.

Section SuccessClaims.
Context {B : Builtins}.
Variable env : Collaborators.

(** C5: (1) whenever the handler answers 200, the analyzer returned an
    analysis for the accepted request, and the envelope has the key
    [human_readable_summary] if and only if that analysis carries a summary
    (is not [None]); a summary that is present is included with its five
    strings whatever they are, the all-empty one too. (2) For every analysis
    whose [Anomaly] serializes, [AnomalyAnalysis.to_dict] returns a
    dictionary, and that dictionary has the key [summary] if and only if the
    analysis carries a summary, again with its five strings; so does every
    dictionary it returns. (3) An analysis without summary and one with a
    summary never give the same [response_data]. *)
Theorem summary_present_iff :
  (forall request,
      status (snd (analyze_anomaly env request)) = 200%Z ->
      exists a analysis,
        accepted (get_json request) a
        /\ snd (run_analyzer env a) = Ok analysis
        /\ (envelope_field "human_readable_summary" (snd (analyze_anomaly env request)) <> None
            <-> AnomalyAnalysis.summary analysis <> None)
        /\ (forall s, AnomalyAnalysis.summary analysis = Some s ->
                      envelope_field "human_readable_summary" (snd (analyze_anomaly env request))
                      = Some (HumanReadableSummary.as_dict s)))
  /\ (forall analysis anomaly_dict,
         Anomaly.to_dict (AnomalyAnalysis.anomaly analysis) = Ok anomaly_dict ->
         exists d,
           AnomalyAnalysis.to_dict analysis = Ok (VDict d)
           /\ dict_lookup "anomaly" d = Some anomaly_dict
           /\ (dict_lookup "summary" d <> None <-> AnomalyAnalysis.summary analysis <> None)
           /\ (forall s, AnomalyAnalysis.summary analysis = Some s ->
                         dict_lookup "summary" d = Some (HumanReadableSummary.as_dict s)))
  /\ (forall analysis d,
         AnomalyAnalysis.to_dict analysis = Ok (VDict d) ->
         (dict_lookup "summary" d <> None <-> AnomalyAnalysis.summary analysis <> None)
         /\ (forall s, AnomalyAnalysis.summary analysis = Some s ->
                       dict_lookup "summary" d = Some (HumanReadableSummary.as_dict s)))
  /\ (forall without_summary with_summary s,
         AnomalyAnalysis.summary without_summary = None ->
         AnomalyAnalysis.summary with_summary = Some s ->
         response_data without_summary <> response_data with_summary).
Proof.
  split; [|split; [|split]].
  - intros request H200.
    destruct (success_inversion env request H200) as (a & analysis & Hacc & Hrun & _ & Hbody).
    exists a, analysis. split; [exact Hacc|]. split; [exact Hrun|].
    unfold envelope_field. rewrite Hbody, response_data_summary.
    destruct (AnomalyAnalysis.summary analysis) as [s|]; cbn [option_map]; split.
    + split; intros _; discriminate.
    + intros s' [= <-]. reflexivity.
    + split; intros H; now contradiction H.
    + discriminate.
  - intros analysis ad Had.
    destruct (to_dict_returns analysis ad Had) as (d & Hd & Hanomaly).
    exists d. split; [exact Hd|]. split; [exact Hanomaly|].
    rewrite (to_dict_summary analysis d Hd).
    destruct (AnomalyAnalysis.summary analysis) as [s|]; cbn [option_map]; split.
    + split; intros _; discriminate.
    + intros s' [= <-]. reflexivity.
    + split; intros H; now contradiction H.
    + discriminate.
  - intros analysis d Hd. rewrite (to_dict_summary analysis d Hd).
    destruct (AnomalyAnalysis.summary analysis) as [s|]; cbn [option_map]; split.
    + split; intros _; discriminate.
    + intros s' [= <-]. reflexivity.
    + split; intros H; now contradiction H.
    + discriminate.
  - intros x y s Hx Hy Heq.
    pose proof (response_data_summary x) as Ex.
    pose proof (response_data_summary y) as Ey.
    rewrite Heq, Ey, Hx, Hy in Ex. discriminate.
Qed.

(** C6: every status-200 envelope has the keys [success] (true),
    [anomaly_id], [root_cause] (an object), [recommendations] (a sequence,
    which may be empty), [analyzed_at], [ai_model_used],
    [analysis_duration_ms], and [saved_to_bigquery], which is the constant
    true whatever the collaborators did. *)
Theorem success_envelope_keys (request : Request) :
  status (snd (analyze_anomaly env request)) = 200%Z ->
  let response := snd (analyze_anomaly env request) in
  envelope_field "success" response = Some (VBool true)
  /\ (exists v, envelope_field "anomaly_id" response = Some v)
  /\ (exists o, envelope_field "root_cause" response = Some (VDict o))
  /\ (exists l, envelope_field "recommendations" response = Some (VList l))
  /\ (exists s, envelope_field "analyzed_at" response = Some (VStr s))
  /\ (exists s, envelope_field "ai_model_used" response = Some (VStr s))
  /\ (exists n, envelope_field "analysis_duration_ms" response = Some (VInt n))
  /\ envelope_field "saved_to_bigquery" response = Some (VBool true).
Proof.
  intros H200 response.
  destruct (success_inversion env request H200) as (a & analysis & _ & _ & _ & Hbody).
  unfold envelope_field, response. rewrite Hbody.
  destruct (response_data_fields analysis)
    as (H1 & H2 & (o & H3) & (l & H4 & _) & H5 & H6 & H7 & H8).
  repeat split; eauto.
Qed.

End SuccessClaims.

(** C5, the witness: the literal request, answered by an engine whose
    analysis carries the all-empty summary: the block is in the envelope;
    and [to_dict] of that analysis returns a dictionary whose [summary]
    holds the five empty strings. *)
Lemma summary_present_iff_witness :
  (exists a analysis,
      accepted (B := Fixture.reference) Fixture.literal a
      /\ snd (run_analyzer (Fixture.answering (Some Fixture.empty_summary)) a) = Ok analysis
      /\ (envelope_field "human_readable_summary"
            (snd (analyze_anomaly (B := Fixture.reference)
                    (Fixture.answering (Some Fixture.empty_summary))
                    (Fixture.post Fixture.literal))) <> None
          <-> AnomalyAnalysis.summary analysis <> None)
      /\ (forall s, AnomalyAnalysis.summary analysis = Some s ->
                    envelope_field "human_readable_summary"
                      (snd (analyze_anomaly (B := Fixture.reference)
                              (Fixture.answering (Some Fixture.empty_summary))
                              (Fixture.post Fixture.literal)))
                    = Some (HumanReadableSummary.as_dict s)))
  /\ (exists d,
         AnomalyAnalysis.to_dict (B := Fixture.reference)
           (Fixture.sample_analysis Fixture.literal_anomaly (Some Fixture.empty_summary))
         = Ok (VDict d)
         /\ dict_lookup "summary" d
            = Some (VDict [ ("what_happened", VStr "");
                            ("why_it_happened", VStr "");
                            ("what_is_the_impact", VStr "");
                            ("what_improvements_can_be_made", VStr "");
                            ("estimated_benefit_if_implemented", VStr "") ]))
  /\ (exists d,
         AnomalyAnalysis.to_dict (B := Fixture.reference)
           (Fixture.sample_analysis Fixture.literal_anomaly None)
         = Ok (VDict d)
         /\ dict_lookup "summary" d = None).
Proof.
  split; [|split].
  - apply (proj1 (summary_present_iff (B := Fixture.reference)
                    (Fixture.answering (Some Fixture.empty_summary)))
                 (Fixture.post Fixture.literal)).
    reflexivity.
  - destruct (proj1 (proj2 (summary_present_iff (B := Fixture.reference)
                              (Fixture.answering (Some Fixture.empty_summary))))
                    (Fixture.sample_analysis Fixture.literal_anomaly
                       (Some Fixture.empty_summary))
                    _ eq_refl)
      as (d & Hd & _ & _ & Hs).
    exists d. split; [exact Hd|]. exact (Hs Fixture.empty_summary eq_refl).
  - destruct (proj1 (proj2 (summary_present_iff (B := Fixture.reference)
                              (Fixture.answering None)))
                    (Fixture.sample_analysis Fixture.literal_anomaly None)
                    _ eq_refl)
      as (d & Hd & _ & Hiff & _).
    exists d. split; [exact Hd|].
    destruct (dict_lookup "summary" d) as [v|]; [|reflexivity].
    exfalso. apply (proj1 Hiff); [discriminate | reflexivity].
Defined.

(** The two envelopes of C5 side by side: no block without a summary, the
    five empty strings with the all-empty one. *)
Example summary_absent_vs_empty :
  envelope_field "human_readable_summary"
    (snd (analyze_anomaly (B := Fixture.reference) (Fixture.answering None)
            (Fixture.post Fixture.literal))) = None
  /\ envelope_field "human_readable_summary"
       (snd (analyze_anomaly (B := Fixture.reference)
               (Fixture.answering (Some Fixture.empty_summary))
               (Fixture.post Fixture.literal)))
     = Some (VDict [ ("what_happened", VStr "");
                     ("why_it_happened", VStr "");
                     ("what_is_the_impact", VStr "");
                     ("what_improvements_can_be_made", VStr "");
                     ("estimated_benefit_if_implemented", VStr "") ]).
Proof. split; reflexivity. Qed.

(** C6, the witness: the literal request and an engine that returns an
    analysis with no recommendation. *)
Lemma success_envelope_keys_witness :
  let response :=
    snd (analyze_anomaly (B := Fixture.reference) (Fixture.answering None)
                         (Fixture.post Fixture.literal)) in
  envelope_field "success" response = Some (VBool true)
  /\ (exists v, envelope_field "anomaly_id" response = Some v)
  /\ (exists o, envelope_field "root_cause" response = Some (VDict o))
  /\ (exists l, envelope_field "recommendations" response = Some (VList l))
  /\ (exists s, envelope_field "analyzed_at" response = Some (VStr s))
  /\ (exists s, envelope_field "ai_model_used" response = Some (VStr s))
  /\ (exists n, envelope_field "analysis_duration_ms" response = Some (VInt n))
  /\ envelope_field "saved_to_bigquery" response = Some (VBool true).
Proof.
  apply (success_envelope_keys (B := Fixture.reference) (Fixture.answering None)
           (Fixture.post Fixture.literal)).
  reflexivity.
Defined.

(* ================================================================= *)
(** ** The persisted schema *)

(** C7, as amended: the columns of [ANOMALY_TABLE_SCHEMA] are, in
    declaration order, the fields of [Anomaly] other than [time_window], each
    under its own name and with the column type prescribed for its
    annotation; there is no other column, and none named [time_window]. *)
Theorem anomaly_schema_covers_all_but_time_window :
  map (fun c => (name c, field_type c)) ANOMALY_TABLE_SCHEMA
  = map (fun nf => (fst nf, spec_column_type (snd nf)))
        (filter (fun nf => negb (String.eqb (fst nf) "time_window")) Anomaly.fields)
  /\ ~ In "time_window" (map name ANOMALY_TABLE_SCHEMA).
Proof.
  split; [reflexivity|]. simpl. intuition discriminate.
Qed.

(** C7, the counterexample: [time_window] is a field of [Anomaly], and no
    column of the schema bears its name. *)
Lemma time_window_has_no_column :
  In ("time_window", TDict) Anomaly.fields
  /\ existsb (fun c => String.eqb (name c) "time_window") ANOMALY_TABLE_SCHEMA = false
  /\ List.length ANOMALY_TABLE_SCHEMA = 14%nat
  /\ List.length Anomaly.fields = 15%nat.
Proof.
  repeat split. simpl. tauto.
Qed.

(* ================================================================= *)
(** ** Optional fields and serialization *)

Lemma dict_lookup_set_same (k : string) (v : value) (d : list (string * value)) :
  dict_lookup k (dict_set k v d) = Some v.
Proof.
  induction d as [|[k' v'] d IH]; simpl.
  - now rewrite String.eqb_refl.
  - destruct (String.eqb k k') eqn:E; simpl; rewrite ?String.eqb_refl, ?E; auto.
Qed.

Lemma dict_lookup_set_other (k k0 : string) (v : value) (d : list (string * value)) :
  k0 <> k -> dict_lookup k0 (dict_set k v d) = dict_lookup k0 d.
Proof.
  intros Hne. induction d as [|[k' v'] d IH]; simpl.
  - apply String.eqb_neq in Hne. now rewrite Hne.
  - destruct (String.eqb k k') eqn:E; simpl.
    + apply String.eqb_eq in E. subst k'.
      apply String.eqb_neq in Hne. now rewrite Hne.
    + now rewrite IH.
Qed.

Section Optional.
Context {B : Builtins}.

Lemma get_dict (d : list (string * value)) (k : string) (default : value) :
  get (VDict d) k default = Ok (get_or d k default).
Proof. unfold get, get_or. now destruct (dict_lookup k d). Qed.

(** The five optional fields of a constructed [Anomaly] are read with
    [dict.get]. *)
Lemma construct_anomaly_optional (request_json : value) (a : Anomaly.t) :
  construct_anomaly request_json = Ok a ->
  exists d,
    request_json = VDict d
    /\ Anomaly.confidence a = get_or d "confidence" (VFloat 0.8%float)
    /\ Anomaly.affected_resources a = get_or d "affected_resources" (VList [])
    /\ Anomaly.time_window a = get_or d "time_window" (VDict [])
    /\ Anomaly.related_metrics a = get_or d "related_metrics" (VDict [])
    /\ Anomaly.metadata a = get_or d "metadata" (VDict []).
Proof.
  intros Hc.
  destruct request_json as [| | | | |l|d|]; try discriminate Hc.
  exists d. split; [reflexivity|].
  unfold construct_anomaly in Hc. rewrite !get_dict in Hc.
  repeat match type of Hc with
  | bind ?r _ = Ok _ => destruct r; cbn [bind] in Hc; [|discriminate Hc]
  end.
  injection Hc as <-. cbn. repeat split.
Qed.

End Optional.

Section OptionalClaims.
Context {B : Builtins}.

(** Overwriting or adding [confidence] leaves construction as it was, except
    for the [confidence] of the result. *)
Lemma construct_anomaly_set_confidence (d : list (string * value)) (v : value) :
  construct_anomaly (VDict (dict_set "confidence" v d))
  = (a <- construct_anomaly (VDict d) ;;
     Ok (Anomaly.mk (Anomaly.anomaly_id a) (Anomaly.detected_at a)
           (Anomaly.metric_name a) (Anomaly.metric_type a)
           (Anomaly.current_value a) (Anomaly.baseline_value a)
           (Anomaly.deviation_sigma a) (Anomaly.deviation_percentage a)
           (Anomaly.anomaly_type a) (Anomaly.severity a) v
           (Anomaly.affected_resources a) (Anomaly.time_window a)
           (Anomaly.related_metrics a) (Anomaly.metadata a))).
Proof.
  unfold construct_anomaly. rewrite !get_dict. unfold getitem, get_or.
  rewrite dict_lookup_set_same.
  rewrite !(dict_lookup_set_other "confidence") by discriminate.
  repeat match goal with
  | |- context [dict_lookup ?k d] =>
      destruct (dict_lookup k d); cbn [bind]; try reflexivity
  | |- context [bind ?r _] =>
      lazymatch r with
      | bind _ _ => fail
      | _ => destruct r; cbn [bind]; try reflexivity
      end
  end.
Qed.

(** C10: in every [Anomaly] the handler constructs, [confidence] is the
    request's [confidence] entry exactly as given, whatever it is, and the
    float [0.8] when the key is absent; [affected_resources], [time_window],
    [related_metrics] and [metadata] are the request's entries, and the empty
    list or empty dict when absent. Moreover, if a request is constructed
    successfully, then so is the same request with any value at all under
    [confidence], and the result differs in [confidence] only: the value is
    neither clamped nor rejected. *)
Theorem optional_fields_defaulted :
  (forall request_json a,
      construct_anomaly request_json = Ok a ->
      exists d,
        request_json = VDict d
        /\ (dict_lookup "confidence" d = None -> Anomaly.confidence a = VFloat 0.8%float)
        /\ (forall v, dict_lookup "confidence" d = Some v -> Anomaly.confidence a = v)
        /\ (dict_lookup "affected_resources" d = None -> Anomaly.affected_resources a = VList [])
        /\ (dict_lookup "time_window" d = None -> Anomaly.time_window a = VDict [])
        /\ (dict_lookup "related_metrics" d = None -> Anomaly.related_metrics a = VDict [])
        /\ (dict_lookup "metadata" d = None -> Anomaly.metadata a = VDict []))
  /\ (forall d a v,
         construct_anomaly (VDict d) = Ok a ->
         exists a',
           construct_anomaly (VDict (dict_set "confidence" v d)) = Ok a'
           /\ Anomaly.confidence a' = v).
Proof.
  split.
  - intros request_json a Hc.
    destruct (construct_anomaly_optional request_json a Hc)
      as (d & -> & Hconf & Hres & Htw & Hrm & Hmd).
    exists d. unfold get_or in *. split; [reflexivity|].
    repeat split; intros; repeat match goal with
    | H : dict_lookup _ d = _ |- _ => rewrite H in *; clear H
    end; assumption.
  - intros d a v Hc. rewrite construct_anomaly_set_confidence, Hc. cbn [bind].
    eexists. split; reflexivity.
Qed.

End OptionalClaims.

(** C10, the witness: the literal request has no optional key and gets
    [confidence = 0.8] and empty context fields; with ["confidence": 1.5] it
    is still constructed and keeps [1.5]. *)
Lemma optional_fields_defaulted_witness :
  (exists d,
      Fixture.literal = VDict d
      /\ (dict_lookup "confidence" d = None ->
          Anomaly.confidence Fixture.literal_anomaly = VFloat 0.8%float)
      /\ (forall v, dict_lookup "confidence" d = Some v ->
                    Anomaly.confidence Fixture.literal_anomaly = v)
      /\ (dict_lookup "affected_resources" d = None ->
          Anomaly.affected_resources Fixture.literal_anomaly = VList [])
      /\ (dict_lookup "time_window" d = None ->
          Anomaly.time_window Fixture.literal_anomaly = VDict [])
      /\ (dict_lookup "related_metrics" d = None ->
          Anomaly.related_metrics Fixture.literal_anomaly = VDict [])
      /\ (dict_lookup "metadata" d = None ->
          Anomaly.metadata Fixture.literal_anomaly = VDict []))
  /\ (exists a',
         construct_anomaly (B := Fixture.reference)
           (VDict (dict_set "confidence" (VFloat 1.5%float) Fixture.literal_fields)) = Ok a'
         /\ Anomaly.confidence a' = VFloat 1.5%float).
Proof.
  split.
  - apply (proj1 (optional_fields_defaulted (B := Fixture.reference))
                 Fixture.literal Fixture.literal_anomaly).
    reflexivity.
  - apply (proj2 (optional_fields_defaulted (B := Fixture.reference))
                 Fixture.literal_fields Fixture.literal_anomaly (VFloat 1.5%float)).
    reflexivity.
Defined.

(* ================================================================= *)
(** ** [Anomaly.to_dict] and the time window *)

Section TimeWindow.
Context {B : Builtins}.

(** Only [datetime] objects answer [isoformat]; JSON data never does. *)
Lemma call_isoformat_json (v : value) :
  json_serializable v = true ->
  call_isoformat v = Raise (no_attribute v "isoformat").
Proof. destruct v; simpl; intros H; try reflexivity; discriminate. Qed.

(** [to_dict] raises on an [Anomaly] whose [time_window] is a non-empty
    dict with JSON data as its first value. *)
Lemma to_dict_raises_on_json (a : Anomaly.t) (k : string) (v : value)
    (rest : list (string * value)) :
  Anomaly.time_window a = VDict ((k, v) :: rest) ->
  json_serializable v = true ->
  Anomaly.to_dict a = Raise (no_attribute v "isoformat").
Proof.
  intros Htw Hv. unfold Anomaly.to_dict, Anomaly.time_window_to_dict.
  rewrite Htw. cbn [items bind mapM snd fst].
  now rewrite (call_isoformat_json v Hv).
Qed.

(** The handler stores the request's [time_window] as it came, so every
    accepted request with a non-empty [time_window] object of JSON values
    yields an [Anomaly] that [to_dict] cannot serialize. *)
Lemma accepted_time_window_breaks_to_dict (d : list (string * value)) (a : Anomaly.t)
    (k : string) (v : value) (rest : list (string * value)) :
  accepted (VDict d) a ->
  dict_lookup "time_window" d = Some (VDict ((k, v) :: rest)) ->
  json_serializable v = true ->
  Anomaly.time_window a = VDict ((k, v) :: rest)
  /\ Anomaly.to_dict a = Raise (no_attribute v "isoformat").
Proof.
  intros (_ & _ & Hc) Hl Hv.
  destruct (construct_anomaly_optional _ _ Hc) as (d' & [= <-] & _ & _ & Htw & _).
  unfold get_or in Htw. rewrite Hl in Htw.
  split; [exact Htw|]. now apply (to_dict_raises_on_json a k v rest).
Qed.

(** With an empty [time_window], serializing and constructing again gives
    back the same [Anomaly], provided [fromisoformat] inverts [isoformat] on
    its [detected_at]; the serialized dict passes the validator. *)
Lemma to_dict_roundtrip (a : Anomaly.t) :
  Anomaly.time_window a = VDict [] ->
  fromisoformat (str_replace1 "Z"%char "+00:00" (isoformat (Anomaly.detected_at a)))
    = inl (Anomaly.detected_at a) ->
  exists request_json,
    Anomaly.to_dict a = Ok request_json
    /\ accepted request_json a
    /\ reparse a = Ok a.
Proof.
  destruct a as [id t mn mt cv bv ds dp ty sv cf ar tw rm md].
  cbn [Anomaly.time_window Anomaly.detected_at]. intros -> Hiso.
  assert (construct_anomaly
            (VDict
               [ ("anomaly_id", id); ("detected_at", VStr (isoformat t));
                 ("metric_name", mn); ("metric_type", mt);
                 ("current_value", VFloat cv); ("baseline_value", VFloat bv);
                 ("deviation_sigma", VFloat ds); ("deviation_percentage", VFloat dp);
                 ("anomaly_type", VStr (AnomalyType_value ty));
                 ("severity", VStr (Severity_value sv));
                 ("confidence", cf); ("affected_resources", ar);
                 ("time_window", VDict []); ("related_metrics", rm);
                 ("metadata", md) ])
          = Ok (Anomaly.mk id t mn mt cv bv ds dp ty sv cf ar (VDict []) rm md)) as Hc.
  { unfold construct_anomaly. cbn [getitem get dict_lookup String.eqb Ascii.eqb Bool.eqb bind replace_Z].
    unfold datetime_fromisoformat. rewrite Hiso. cbn [bind float_].
    rewrite AnomalyType_call_value. cbn [bind].
    rewrite Severity_call_value. reflexivity. }
  eexists. split; [reflexivity|]. split.
  - repeat split. exact Hc.
  - unfold reparse. cbn. exact Hc.
Qed.

End TimeWindow.

(** C8, the defect at a concrete request: the literal request with a
    [time_window] of two ISO-8601 texts is accepted; the constructed
    [Anomaly] holds the two texts unchanged, and [to_dict] raises
    [AttributeError] on the first of them. *)
Theorem time_window_not_coerced :
  let window := VDict [ ("start", VStr "2024-12-16T14:00:00Z");
                        ("end", VStr "2024-12-16T14:10:00Z") ] in
  exists a,
    accepted (B := Fixture.reference) (Fixture.literal_with "time_window" window) a
    /\ Anomaly.detected_at a = Fixture.literal_time
    /\ Anomaly.time_window a = window
    /\ Anomaly.to_dict (B := Fixture.reference) a
       = Raise (AttributeError "'str' object has no attribute 'isoformat'").
Proof.
  eexists. split; [|split; [|split]].
  - repeat split.
  - reflexivity.
  - reflexivity.
  - reflexivity.
Qed.

(** C9, the defect at a concrete request: the literal request alone makes
    the round trip, but with a one-entry [time_window] construction succeeds
    and serializing the result raises, so nothing can be parsed back. *)
Theorem roundtrip_breaks_on_time_window :
  reparse (B := Fixture.reference) Fixture.literal_anomaly = Ok Fixture.literal_anomaly
  /\ exists a,
       accepted (B := Fixture.reference)
         (Fixture.literal_with "time_window"
            (VDict [ ("start", VStr "2024-12-16T14:00:00+00:00") ])) a
       /\ reparse (B := Fixture.reference) a
          = Raise (AttributeError "'str' object has no attribute 'isoformat'").
Proof.
  split; [reflexivity|].
  eexists. split; [repeat split|reflexivity].
Qed.

(* ================================================================= *)
(** ** The handler, branch by branch *)

Import Shapes.

Section Branches.
Context {B : Builtins}.
Variable env : Collaborators.

(** The five ways through the [try] body. *)
Lemma try_block_cases (request_json : value) :
  (truthy request_json = false
   /\ try_block env request_json = ([], Ok invalid_request))
  \/ (truthy request_json = true
      /\ exists e, missing_fields request_json = Raise e
                   /\ try_block env request_json = ([], Raise e))
  \/ (truthy request_json = true
      /\ exists m ms, missing_fields request_json = Ok (m :: ms)
                      /\ try_block env request_json = ([], Ok (missing_required (m :: ms))))
  \/ (truthy request_json = true
      /\ missing_fields request_json = Ok []
      /\ exists e, construct_anomaly request_json = Raise e
                   /\ try_block env request_json = ([], Raise e))
  \/ (exists a, accepted request_json a
                /\ try_block env request_json
                   = (analysis <~ run_analyzer env a ;;
                      lift (respond (response_data analysis) 200))).
Proof.
  unfold try_block, accepted.
  destruct (truthy request_json) eqn:Ht; cbn [negb]; [|left; split; reflexivity].
  right.
  destruct (missing_fields request_json) as [ms|e] eqn:Hms.
  2:{ left. split; [reflexivity|]. exists e. split; reflexivity. }
  right. rewrite eff_bind_lift_Ok.
  destruct ms as [|m ms].
  2:{ left. split; [reflexivity|]. exists m, ms. split; [reflexivity|].
      cbn [truthy strs map]. unfold respond, dumps.
      cbn [json_serializable forallb snd]. rewrite !strs_serializable. reflexivity. }
  right. cbn [truthy strs map].
  destruct (construct_anomaly request_json) as [a|e] eqn:Hc.
  - right. exists a. rewrite eff_bind_lift_Ok. repeat split.
  - left. repeat split. exists e. split; reflexivity.
Qed.

(** Only [anomaly_id] can keep [response_data] from being serialized. *)
Lemma response_data_serializable (analysis : AnomalyAnalysis.t) :
  json_serializable (VDict (response_data analysis))
  = json_serializable (Anomaly.anomaly_id (AnomalyAnalysis.anomaly analysis)).
Proof.
  assert (forall l, forallb json_serializable (map VStr l) = true) as Hstrs
    by (induction l; simpl; auto).
  assert (forallb json_serializable
            (map (fun rec => VDict
               [ ("priority", VStr (Recommendation.priority rec));
                 ("action", VStr (Recommendation.action rec));
                 ("rationale", VStr (Recommendation.rationale rec));
                 ("expected_impact", VStr (Recommendation.expected_impact rec));
                 ("implementation_steps", strs (Recommendation.implementation_steps rec));
                 ("estimated_effort", VStr (Recommendation.estimated_effort rec));
                 ("risk_level", VStr (Recommendation.risk_level rec)) ])
               (AnomalyAnalysis.recommendations analysis)) = true) as Hrecs.
  { induction (AnomalyAnalysis.recommendations analysis) as [|r l IH]; [reflexivity|].
    cbn [map forallb json_serializable snd strs]. now rewrite Hstrs, IH. }
  unfold response_data.
  destruct (AnomalyAnalysis.summary analysis) as [s|];
    cbn [AnomalyAnalysis.summary_truthy dict_set String.eqb Ascii.eqb Bool.eqb
         HumanReadableSummary.as_dict json_serializable forallb snd strs];
    rewrite Hrecs, !Hstrs;
    destruct (json_serializable (Anomaly.anomaly_id (AnomalyAnalysis.anomaly analysis)));
    reflexivity.
Qed.

(** What the handler returns once the analyzer has answered. *)
Lemma respond_analysis (analysis : AnomalyAnalysis.t) :
  respond (response_data analysis) 200
  = if json_serializable (Anomaly.anomaly_id (AnomalyAnalysis.anomaly analysis))
    then Ok (success analysis)
    else Raise (TypeError "Object of type datetime is not JSON serializable").
Proof.
  unfold respond, dumps. rewrite response_data_serializable.
  now destruct (json_serializable _).
Qed.

End Branches.

Section HandlerProperties.
Context {B : Builtins}.
Variable env : Collaborators.

(** The answer to an accepted request is decided by the analyzer run. *)
Lemma analyze_anomaly_accepted (request : Request) (a : Anomaly.t) :
  method request <> "OPTIONS" ->
  accepted (get_json request) a ->
  analyze_anomaly env request =
    (fst (run_analyzer env a),
     match snd (run_analyzer env a) with
     | Ok analysis =>
         if json_serializable (Anomaly.anomaly_id (AnomalyAnalysis.anomaly analysis))
         then success analysis
         else internal_server_error
                (TypeError "Object of type datetime is not JSON serializable")
     | Raise e => if isinstance_ValueError e then validation_error e
                  else internal_server_error e
     end).
Proof.
  intros Hm Hacc.
  destruct (accepted_dict _ _ Hacc) as (d & Hj & Hreq & Hc).
  rewrite (analyze_anomaly_dispatch env request Hm), Hj.
  rewrite (try_block_constructed env d a Hreq Hc). unfold eff_bind.
  destruct (run_analyzer env a) as [tr [analysis|e]]; cbn [fst snd]; [|reflexivity].
  rewrite respond_analysis, app_nil_r.
  now destruct (json_serializable _).
Qed.

(** The answer to a request that is not accepted involves no collaborator. *)
Lemma analyze_anomaly_not_accepted (request : Request) :
  method request <> "OPTIONS" ->
  (forall a, ~ accepted (get_json request) a) ->
  fst (analyze_anomaly env request) = []
  /\ (snd (analyze_anomaly env request) = invalid_request
      /\ truthy (get_json request) = false
      \/ (exists m ms, snd (analyze_anomaly env request) = missing_required (m :: ms)
                       /\ missing_fields (get_json request) = Ok (m :: ms))
      \/ (exists e, snd (analyze_anomaly env request)
                    = (if isinstance_ValueError e then validation_error e
                       else internal_server_error e)
                    /\ truthy (get_json request) = true
                    /\ (missing_fields (get_json request) = Raise e
                        \/ construct_anomaly (get_json request) = Raise e))).
Proof.
  intros Hm Hno. rewrite (analyze_anomaly_dispatch env request Hm).
  destruct (try_block_cases env (get_json request))
    as [(Ht & ->) | [(Ht & e & He & ->) | [(Ht & m & ms & Hms & ->)
       | [(Ht & Hms & e & He & ->) | (a & Ha & _)]]]]; cbn [fst snd].
  - split; [reflexivity|]. left. now split.
  - split; [reflexivity|]. right; right. exists e.
    destruct (isinstance_ValueError e); repeat split; auto.
  - split; [reflexivity|]. right; left. exists m, ms. now split.
  - split; [reflexivity|]. right; right. exists e.
    destruct (isinstance_ValueError e); repeat split; auto.
  - destruct (Hno a Ha).
Qed.

(** X1: the preflight is answered 204 with the preflight headers and an
    empty text, without reading the body. Every other response carries the
    two CORS/JSON headers and has one of five shapes: status 200 with
    [success] true and no [error]; status 400 with [error] one of "Invalid
    request", "Missing required fields", "Validation error"; status 500 with
    [error] "Internal server error" and a [type]. All error envelopes have a
    [message] except the missing-fields one, which has none. *)
Theorem response_taxonomy (request : Request) :
  (method request = "OPTIONS" -> analyze_anomaly env request = ([], preflight))
  /\ (method request <> "OPTIONS" ->
      let r := snd (analyze_anomaly env request) in
      headers r = cors_headers
      /\ ((status r = 200%Z
           /\ envelope_field "success" r = Some (VBool true)
           /\ envelope_field "error" r = None)
          \/ (status r = 400%Z
              /\ envelope_field "error" r = Some (VStr "Invalid request")
              /\ envelope_field "message" r = Some (VStr "Request body must be JSON"))
          \/ (status r = 400%Z
              /\ envelope_field "error" r = Some (VStr "Missing required fields")
              /\ envelope_field "message" r = None)
          \/ (status r = 400%Z
              /\ envelope_field "error" r = Some (VStr "Validation error")
              /\ exists m, envelope_field "message" r = Some (VStr m))
          \/ (status r = 500%Z
              /\ envelope_field "error" r = Some (VStr "Internal server error")
              /\ exists m t, envelope_field "message" r = Some (VStr m)
                             /\ envelope_field "type" r = Some (VStr t)))).
Proof.
  split.
  - intros Hm. unfold analyze_anomaly. rewrite Hm. reflexivity.
  - intros Hm r.
    assert (forall e, let x := if isinstance_ValueError e then validation_error e
                               else internal_server_error e in
                      headers x = cors_headers
                      /\ ((status x = 400%Z
                           /\ envelope_field "error" x = Some (VStr "Validation error")
                           /\ exists m, envelope_field "message" x = Some (VStr m))
                          \/ (status x = 500%Z
                              /\ envelope_field "error" x = Some (VStr "Internal server error")
                              /\ exists m t, envelope_field "message" x = Some (VStr m)
                                             /\ envelope_field "type" x = Some (VStr t)))) as Herr.
    { intros e. destruct (isinstance_ValueError e); cbn; split; auto.
      - left. repeat split. eauto.
      - right. repeat split. eauto. }
    pose proof (analyze_anomaly_dispatch env request Hm) as Hd.
    unfold r. rewrite Hd. cbn [snd].
    destruct (try_block_cases env (get_json request))
      as [(Ht & ->) | [(Ht & e & He & ->) | [(Ht & m & ms & Hms & ->)
         | [(Ht & Hms & e & He & ->) | (a & Ha & ->)]]]]; cbn [snd].
    + split; [reflexivity|]. right; left. repeat split.
    + destruct (Herr e) as (Hh & [H|H]); split; auto.
    + split; [reflexivity|]. right; right; left. repeat split.
    + destruct (Herr e) as (Hh & [H|H]); split; auto.
    + unfold eff_bind.
      destruct (run_analyzer env a) as [tr [analysis|e]]; cbn [fst snd].
      * rewrite respond_analysis.
        destruct (json_serializable _); cbn [lift snd].
        -- split; [reflexivity|]. left. split; [reflexivity|].
           unfold envelope_field, success; cbn [body].
           split; [apply (response_data_fields analysis)|].
           unfold response_data.
           now destruct (AnomalyAnalysis.summary analysis).
        -- split; [reflexivity|]. right; right; right; right.
           repeat split. cbn. eauto.
      * destruct (Herr e) as (Hh & [H|H]); split; auto.
Qed.

(** X2: for a request other than the preflight the handler answers with the
    [Invalid request] envelope exactly when the parsed body is false in
    Python: [None] (no JSON), [false], integer or floating zero, the empty
    string, the empty array or the empty object. No collaborator is called
    then. *)
Theorem falsy_body_is_invalid_request (request : Request) :
  method request <> "OPTIONS" ->
  (truthy (get_json request) = false <->
   get_json request = VNone \/ get_json request = VBool false
   \/ get_json request = VInt 0
   \/ (exists f, get_json request = VFloat f /\ PrimFloat.eqb f 0%float = true)
   \/ get_json request = VStr "" \/ get_json request = VList []
   \/ get_json request = VDict [])
  /\ (truthy (get_json request) = false ->
      analyze_anomaly env request = ([], invalid_request))
  /\ (truthy (get_json request) = true ->
      snd (analyze_anomaly env request) <> invalid_request).
Proof.
  intros Hm. split; [|split].
  - split.
    + intros Ht. destruct (get_json request) as [|b|z|f|s|l|d|t]; cbn [truthy] in Ht.
      * tauto.
      * destruct b; [discriminate|tauto].
      * apply negb_false_iff, Z.eqb_eq in Ht. subst. tauto.
      * apply negb_false_iff in Ht. right; right; right; left. eauto.
      * apply negb_false_iff, String.eqb_eq in Ht. subst. tauto.
      * destruct l; [tauto|discriminate].
      * destruct d; [tauto|discriminate].
      * discriminate.
    + intros [-> | [-> | [-> | [(f & -> & Hf) | [-> | [-> | ->]]]]]];
        cbn [truthy]; try reflexivity.
      now rewrite Hf.
  - intros Ht. rewrite (analyze_anomaly_dispatch env request Hm).
    unfold try_block. rewrite Ht. reflexivity.
  - intros Ht. rewrite (analyze_anomaly_dispatch env request Hm). cbn [snd].
    destruct (try_block_cases env (get_json request))
      as [(Ht' & _) | [(_ & e & _ & ->) | [(_ & m & ms & _ & ->)
         | [(_ & _ & e & _ & ->) | (a & _ & ->)]]]]; cbn [snd].
    + congruence.
    + destruct (isinstance_ValueError e); discriminate.
    + discriminate.
    + destruct (isinstance_ValueError e); discriminate.
    + unfold eff_bind.
      destruct (run_analyzer env a) as [tr [analysis|e]]; cbn [fst snd].
      * rewrite respond_analysis. destruct (json_serializable _); discriminate.
      * destruct (isinstance_ValueError e); discriminate.
Qed.

End HandlerProperties.

(* ================================================================= *)
(** ** What construction accepts *)

Section ConstructionRelation.
Context {B : Builtins}.

Lemma getitem_dict_Ok (d : list (string * value)) (k : string) (v : value) :
  getitem (VDict d) k = Ok v -> dict_lookup k d = Some v.
Proof.
  unfold getitem. destruct (dict_lookup k d); [congruence | discriminate].
Qed.

Lemma replace_Z_Ok (raw : value) (text : string) :
  replace_Z raw = Ok text ->
  exists s, raw = VStr s /\ text = str_replace1 "Z"%char "+00:00" s.
Proof.
  destruct raw; try discriminate. cbn. intros [= <-]. eauto.
Qed.

Lemma datetime_fromisoformat_Ok (text : string) (t : datetime) :
  datetime_fromisoformat text = Ok t -> fromisoformat text = inl t.
Proof.
  unfold datetime_fromisoformat. destruct (fromisoformat text); [congruence | discriminate].
Qed.

Lemma construct_anomaly_constructs (d : list (string * value)) (a : Anomaly.t) :
  construct_anomaly (VDict d) = Ok a -> constructs d a.
Proof.
  unfold construct_anomaly. rewrite !get_dict. intros Hc.
  destruct (getitem (VDict d) "anomaly_id") as [id|] eqn:Hid; cbn [bind] in Hc; [|discriminate].
  destruct (getitem (VDict d) "detected_at") as [raw|] eqn:Hraw; cbn [bind] in Hc; [|discriminate].
  destruct (replace_Z raw) as [text|] eqn:Htext; cbn [bind] in Hc; [|discriminate].
  destruct (datetime_fromisoformat text) as [t|] eqn:Ht; cbn [bind] in Hc; [|discriminate].
  destruct (getitem (VDict d) "metric_name") as [mn|] eqn:Hmn; cbn [bind] in Hc; [|discriminate].
  destruct (getitem (VDict d) "metric_type") as [mt|] eqn:Hmt; cbn [bind] in Hc; [|discriminate].
  destruct (getitem (VDict d) "current_value") as [v1|] eqn:Hv1; cbn [bind] in Hc; [|discriminate].
  destruct (float_ v1) as [x1|] eqn:Hx1; cbn [bind] in Hc; [|discriminate].
  destruct (getitem (VDict d) "baseline_value") as [v2|] eqn:Hv2; cbn [bind] in Hc; [|discriminate].
  destruct (float_ v2) as [x2|] eqn:Hx2; cbn [bind] in Hc; [|discriminate].
  destruct (getitem (VDict d) "deviation_sigma") as [v3|] eqn:Hv3; cbn [bind] in Hc; [|discriminate].
  destruct (float_ v3) as [x3|] eqn:Hx3; cbn [bind] in Hc; [|discriminate].
  destruct (getitem (VDict d) "deviation_percentage") as [v4|] eqn:Hv4; cbn [bind] in Hc; [|discriminate].
  destruct (float_ v4) as [x4|] eqn:Hx4; cbn [bind] in Hc; [|discriminate].
  destruct (getitem (VDict d) "anomaly_type") as [v5|] eqn:Hv5; cbn [bind] in Hc; [|discriminate].
  destruct (AnomalyType_call v5) as [ty|] eqn:Hty; cbn [bind] in Hc; [|discriminate].
  destruct (getitem (VDict d) "severity") as [v6|] eqn:Hv6; cbn [bind] in Hc; [|discriminate].
  destruct (Severity_call v6) as [sv|] eqn:Hsv; cbn [bind] in Hc; [|discriminate].
  injection Hc as <-.
  apply replace_Z_Ok in Htext. destruct Htext as (s & -> & ->).
  apply datetime_fromisoformat_Ok in Ht.
  repeat match goal with
  | H : getitem (VDict d) _ = Ok _ |- _ => apply getitem_dict_Ok in H
  end.
  unfold constructs. cbn. repeat split; eauto.
Qed.

Lemma constructs_construct_anomaly (d : list (string * value)) (a : Anomaly.t) :
  constructs d a -> construct_anomaly (VDict d) = Ok a.
Proof.
  destruct a as [id t mn mt cv bv ds dp ty sv cf ar tw rm md].
  unfold constructs. cbn.
  intros (Hid & (s & Hs & Ht) & Hmn & Hmt & (v1 & Hv1 & Hx1) & (v2 & Hv2 & Hx2)
          & (v3 & Hv3 & Hx3) & (v4 & Hv4 & Hx4) & (v5 & Hv5 & Hty) & (v6 & Hv6 & Hsv)
          & -> & -> & -> & -> & ->).
  unfold construct_anomaly. rewrite !get_dict.
  rewrite (getitem_lookup _ _ _ Hid), (getitem_lookup _ _ _ Hs),
          (getitem_lookup _ _ _ Hmn), (getitem_lookup _ _ _ Hmt),
          (getitem_lookup _ _ _ Hv1), (getitem_lookup _ _ _ Hv2),
          (getitem_lookup _ _ _ Hv3), (getitem_lookup _ _ _ Hv4),
          (getitem_lookup _ _ _ Hv5), (getitem_lookup _ _ _ Hv6).
  cbn [bind replace_Z]. unfold datetime_fromisoformat. rewrite Ht. cbn [bind].
  rewrite Hx1, Hx2, Hx3, Hx4. cbn [bind]. rewrite Hty. cbn [bind]. rewrite Hsv.
  reflexivity.
Qed.

(** X3: construction returns an [Anomaly] exactly for an object in which
    [detected_at] is text that [fromisoformat] parses after every [Z] has
    been rewritten to [+00:00], the four numeric keys hold objects [float]
    accepts, and [anomaly_type] and [severity] hold values of their
    enumerations. The other fields are copied without any check, the three
    required ones ([anomaly_id], [metric_name], [metric_type]) too: presence
    is all that is asked of them. *)
Theorem construct_anomaly_iff (request_json : value) (a : Anomaly.t) :
  construct_anomaly request_json = Ok a
  <-> exists d, request_json = VDict d /\ constructs d a.
Proof.
  split.
  - intros Hc. destruct request_json as [| | | | |l|d|]; try discriminate Hc.
    exists d. split; [reflexivity|]. now apply construct_anomaly_constructs.
  - intros (d & -> & H). now apply constructs_construct_anomaly.
Qed.

Lemma dict_lookup_serializable (d : list (string * value)) (k : string) (v : value) :
  json_serializable (VDict d) = true ->
  dict_lookup k d = Some v ->
  json_serializable v = true.
Proof.
  cbn [json_serializable]. induction d as [|[k' v'] d IH]; [discriminate|].
  cbn [forallb snd dict_lookup]. intros H Hl. apply andb_prop in H. destruct H as (Hv & Hd).
  destruct (String.eqb k k'); [congruence | auto].
Qed.

End ConstructionRelation.

Section MoreHandlerProperties.
Context {B : Builtins}.
Variable env : Collaborators.

(** X4: the collaborators are called for accepted requests only, and then in
    the order [get_config], agent constructor, [analyze_anomaly], each at
    most once and stopping at the first that raises; the engine receives
    exactly the [Anomaly] that construction returned. The preflight and
    every request that is not accepted cause no call at all. *)
Theorem collaborators_follow_acceptance (request : Request) :
  (forall a,
      method request <> "OPTIONS" ->
      accepted (get_json request) a ->
      let calls := fst (analyze_anomaly env request) in
      (calls = [Call_get_config] /\ exists e, get_config env = Raise e)
      \/ (calls = [Call_get_config; Call_AnomalyAnalyzerAgent]
          /\ exists config e, get_config env = Ok config
                              /\ AnomalyAnalyzerAgent env config = Raise e)
      \/ (calls = [Call_get_config; Call_AnomalyAnalyzerAgent; Call_analyze_anomaly a]
          /\ exists config analyzer, get_config env = Ok config
                                     /\ AnomalyAnalyzerAgent env config = Ok analyzer))
  /\ (method request = "OPTIONS" \/ (forall a, ~ accepted (get_json request) a) ->
      fst (analyze_anomaly env request) = []).
Proof.
  split.
  - intros a Hm Hacc calls. unfold calls.
    rewrite (analyze_anomaly_accepted env request a Hm Hacc). cbn [fst].
    unfold run_analyzer, eff_bind, perform. cbn [fst snd].
    destruct (get_config env) as [config|e] eqn:Hg; cbn [fst snd]; [|left; eauto].
    destruct (AnomalyAnalyzerAgent env config) as [analyzer|e] eqn:Hc; cbn [fst snd app].
    + right; right. eauto.
    + right; left. eauto.
  - intros [Hm | Hno].
    + unfold analyze_anomaly. rewrite Hm. reflexivity.
    + destruct (String.eqb_spec (method request) "OPTIONS") as [Hm | Hm].
      * unfold analyze_anomaly. rewrite Hm. reflexivity.
      * apply (analyze_anomaly_not_accepted env request Hm Hno).
Qed.

(** X5: when the validator accepts the request and the analyzer returns an
    analysis whose [anomaly_id] is JSON data, the handler answers 200 with
    [response_data] as body. That is so in particular when the body came
    from a JSON parser and the analyzer hands back the [Anomaly] it was
    given. *)
Theorem analysis_answered_with_200 (request : Request) (a : Anomaly.t)
    (analysis : AnomalyAnalysis.t) :
  method request <> "OPTIONS" ->
  accepted (get_json request) a ->
  snd (run_analyzer env a) = Ok analysis ->
  (json_serializable (Anomaly.anomaly_id (AnomalyAnalysis.anomaly analysis)) = true ->
   snd (analyze_anomaly env request) = success analysis)
  /\ (json_serializable (get_json request) = true ->
      AnomalyAnalysis.anomaly analysis = a ->
      snd (analyze_anomaly env request) = success analysis).
Proof.
  intros Hm Hacc Hrun.
  assert (json_serializable (Anomaly.anomaly_id (AnomalyAnalysis.anomaly analysis)) = true ->
          snd (analyze_anomaly env request) = success analysis) as H200.
  { intros Hs. rewrite (analyze_anomaly_accepted env request a Hm Hacc). cbn [snd].
    now rewrite Hrun, Hs. }
  split; [exact H200|].
  intros Hjson Heq. apply H200. rewrite Heq.
  destruct (accepted_dict _ _ Hacc) as (d & Hj & _ & Hc).
  rewrite Hj in Hjson.
  apply construct_anomaly_constructs in Hc. destruct Hc as (Hid & _).
  exact (dict_lookup_serializable d _ _ Hjson Hid).
Qed.

(** X6: with every required key present, a [detected_at] text that
    [fromisoformat] rejects is answered by the 400 [Validation error]
    envelope carrying the parser's message; a [detected_at] that is not text
    (a number, a boolean, null, an array, an object) is answered by the 500
    envelope of the [AttributeError] raised by the [replace] call. No
    collaborator is called in either case. *)
Theorem bad_timestamp_rejected (request : Request) (d : list (string * value)) (v : value) :
  method request <> "OPTIONS" ->
  get_json request = VDict d ->
  has_required d ->
  dict_lookup "detected_at" d = Some v ->
  (forall s msg,
      v = VStr s ->
      fromisoformat (str_replace1 "Z"%char "+00:00" s) = inr msg ->
      analyze_anomaly env request = ([], validation_error (ValueError msg)))
  /\ (is_str v = false -> is_datetime v = false ->
      analyze_anomaly env request
      = ([], internal_server_error
               (AttributeError ("'" ++ type_name v ++ "' object has no attribute 'replace'")))).
Proof.
  intros Hm Hj Hreq Hv.
  destruct (has_required_lookup d "anomaly_id" Hreq) as [id Hid]; [simpl; tauto|].
  split.
  - intros s msg -> Hbad.
    rewrite (rejected_by_construction env request d (ValueError msg) Hm Hj Hreq);
      [reflexivity|].
    unfold construct_anomaly.
    rewrite (getitem_lookup _ _ _ Hid), (getitem_lookup _ _ _ Hv).
    cbn [bind replace_Z]. unfold datetime_fromisoformat. now rewrite Hbad.
  - intros Hs Hd.
    rewrite (rejected_by_construction env request d (no_attribute v "replace") Hm Hj Hreq);
      [reflexivity|].
    unfold construct_anomaly.
    rewrite (getitem_lookup _ _ _ Hid), (getitem_lookup _ _ _ Hv).
    cbn [bind]. destruct v; try discriminate; reflexivity.
Qed.

(** What [filterM] returns, element by element. *)
Lemma filterM_Ok {A : Type} (p : A -> result bool) (xs l : list A) :
  filterM p xs = Ok l ->
  (forall x, In x l <-> In x xs /\ p x = Ok true)
  /\ (forall x, In x xs -> exists b, p x = Ok b).
Proof.
  revert l. induction xs as [|y xs IH]; intros l H.
  - injection H as <-. split; [intros x; simpl; tauto | intros x []].
  - cbn [filterM] in H.
    destruct (p y) as [b|] eqn:Hy; cbn [bind] in H; [|discriminate].
    destruct (filterM p xs) as [ys|] eqn:Hys; cbn [bind] in H; [|discriminate].
    injection H as <-. destruct (IH ys eq_refl) as (IH1 & IH2). split.
    + intros x. destruct b; cbn [In]; rewrite IH1; split.
      * intros [<- | H]; [now split; [left|] | split; [now right | tauto]].
      * intros ([<- | H] & Hx); [now left | right; tauto].
      * intros H; split; [now right | tauto].
      * intros ([<- | H] & Hx); [congruence | tauto].
    + intros x [<- | Hx]; eauto.
Qed.

Lemma missing_fields_Ok (request_json : value) (l : list string) :
  missing_fields request_json = Ok l ->
  forall f, In f l <-> In f required_fields /\ contains request_json f = Ok false.
Proof.
  intros H f. unfold missing_fields in H.
  destruct (filterM_Ok _ _ _ H) as (H1 & _). rewrite H1.
  destruct (contains request_json f) as [[|]|]; cbn [bind negb]; intuition congruence.
Qed.

Lemma missing_fields_none (request_json : value) :
  missing_fields request_json = Ok [] ->
  forall f, In f required_fields -> contains request_json f = Ok true.
Proof.
  intros H f Hf. pose proof (missing_fields_Ok _ _ H f) as Hiff.
  unfold missing_fields in H. destruct (filterM_Ok _ _ _ H) as (_ & H2).
  destruct (H2 f Hf) as (b & Hb).
  destruct (contains request_json f) as [[|]|]; cbn [bind] in Hb;
    [reflexivity | | discriminate].
  destruct (proj2 Hiff (conj Hf eq_refl)).
Qed.

(** [in] raises for one name only if it raises for all: it depends on the
    type of the container alone. *)
Lemma missing_fields_Raise (request_json : value) (e : exn) :
  missing_fields request_json = Raise e ->
  forall f, exists e', contains request_json f = Raise e'.
Proof.
  intros H f.
  destruct request_json; try (eexists; reflexivity); discriminate H.
Qed.

Lemma non_object_raises_TypeError (request_json : value) (e : exn) :
  (forall d, request_json <> VDict d) ->
  missing_fields request_json = Raise e \/ construct_anomaly request_json = Raise e ->
  exists msg, e = TypeError msg.
Proof.
  intros Hnd [H | H]; destruct request_json as [| | | | | |d|];
    try (destruct (Hnd d eq_refl));
    try discriminate H;
    cbn in H; injection H as <-; eauto.
Qed.

(** X7: a body that is true in Python but is not an object (an array, a
    string, a number, [true]) never reaches the collaborators. An array or
    a string is searched with [in]: the names it lacks are reported as
    missing, and if it holds all ten the subscription
    [request_json['anomaly_id']] raises [TypeError], answered 500; a number
    or [true] makes [in] itself raise [TypeError], answered 500. *)
Theorem non_object_body_never_analyzed (request : Request) :
  method request <> "OPTIONS" ->
  truthy (get_json request) = true ->
  (forall d, get_json request <> VDict d) ->
  fst (analyze_anomaly env request) = []
  /\ ((exists m ms,
          (forall f, In f (m :: ms) <->
                     In f required_fields /\ contains (get_json request) f = Ok false)
          /\ snd (analyze_anomaly env request) = missing_required (m :: ms))
      \/ (exists msg,
             (forall f, In f required_fields ->
                        contains (get_json request) f = Ok true
                        \/ exists e, contains (get_json request) f = Raise e)
             /\ snd (analyze_anomaly env request) = internal_server_error (TypeError msg))).
Proof.
  intros Hm Ht Hnd.
  rewrite (analyze_anomaly_dispatch env request Hm).
  destruct (try_block_cases env (get_json request))
    as [(Ht' & _) | [(_ & e & He & ->) | [(_ & m & ms & Hms & ->)
       | [(_ & Hms & e & He & ->) | (a & Ha & _)]]]]; cbn [fst snd].
  - congruence.
  - split; [reflexivity|]. right.
    destruct (non_object_raises_TypeError _ e Hnd (or_introl He)) as (msg & ->).
    exists msg. split; [|reflexivity].
    intros f Hf. destruct (missing_fields_Raise _ _ He f) as (e' & He'). eauto.
  - split; [reflexivity|]. left. exists m, ms. split; [|reflexivity].
    intros f. apply (missing_fields_Ok _ _ Hms).
  - split; [reflexivity|]. right.
    destruct (non_object_raises_TypeError _ e Hnd (or_intror He)) as (msg & ->).
    exists msg. split; [|reflexivity].
    intros f Hf. left. now apply (missing_fields_none _ Hms).
  - destruct (accepted_dict _ _ Ha) as (d & Hd & _). destruct (Hnd d Hd).
Qed.

End MoreHandlerProperties.

(** X1, the witness: the preflight, and the literal request answered 200. *)
Lemma response_taxonomy_witness :
  analyze_anomaly (B := Fixture.reference) (Fixture.answering None)
    (mk_request "OPTIONS" Fixture.literal) = ([], preflight)
  /\ headers (snd (analyze_anomaly (B := Fixture.reference) (Fixture.answering None)
                     (Fixture.post Fixture.literal))) = cors_headers.
Proof.
  split.
  - apply (proj1 (response_taxonomy (B := Fixture.reference) (Fixture.answering None)
                    (mk_request "OPTIONS" Fixture.literal))).
    reflexivity.
  - apply (proj2 (response_taxonomy (B := Fixture.reference) (Fixture.answering None)
                    (Fixture.post Fixture.literal))).
    discriminate.
Defined.

(** X2, the witness: the JSON body [0]. *)
Lemma falsy_body_is_invalid_request_witness :
  analyze_anomaly (B := Fixture.reference) (Fixture.answering None)
    (Fixture.post (VInt 0)) = ([], invalid_request).
Proof.
  apply (proj1 (proj2 (falsy_body_is_invalid_request (B := Fixture.reference)
                         (Fixture.answering None) (Fixture.post (VInt 0))
                         ltac:(discriminate)))).
  reflexivity.
Defined.

(** X4, the witness: the literal request with a working engine (three
    calls), and the empty object (none). *)
Lemma collaborators_follow_acceptance_witness :
  (let calls := fst (analyze_anomaly (B := Fixture.reference) (Fixture.answering None)
                       (Fixture.post Fixture.literal)) in
   (calls = [Call_get_config] /\ exists e, get_config (Fixture.answering None) = Raise e)
   \/ (calls = [Call_get_config; Call_AnomalyAnalyzerAgent]
       /\ exists config e,
            get_config (Fixture.answering None) = Ok config
            /\ AnomalyAnalyzerAgent (Fixture.answering None) config = Raise e)
   \/ (calls = [Call_get_config; Call_AnomalyAnalyzerAgent;
                Call_analyze_anomaly Fixture.literal_anomaly]
       /\ exists config analyzer,
            get_config (Fixture.answering None) = Ok config
            /\ AnomalyAnalyzerAgent (Fixture.answering None) config = Ok analyzer))
  /\ fst (analyze_anomaly (B := Fixture.reference) (Fixture.answering None)
            (Fixture.post (VDict []))) = [].
Proof.
  split.
  - apply (proj1 (collaborators_follow_acceptance (B := Fixture.reference)
                    (Fixture.answering None) (Fixture.post Fixture.literal))
                 Fixture.literal_anomaly).
    + discriminate.
    + exact literal_accepted.
  - apply (proj2 (collaborators_follow_acceptance (B := Fixture.reference)
                    (Fixture.answering None) (Fixture.post (VDict [])))).
    right. intros a (Ht & _). discriminate Ht.
Defined.

(** X5, the witness: the literal request and an engine that hands the
    [Anomaly] back. *)
Lemma analysis_answered_with_200_witness :
  snd (analyze_anomaly (B := Fixture.reference) (Fixture.answering None)
         (Fixture.post Fixture.literal))
  = success (B := Fixture.reference) (Fixture.sample_analysis Fixture.literal_anomaly None).
Proof.
  apply (proj2 (analysis_answered_with_200 (B := Fixture.reference) (Fixture.answering None)
                  (Fixture.post Fixture.literal) Fixture.literal_anomaly
                  (Fixture.sample_analysis Fixture.literal_anomaly None)
                  ltac:(discriminate) literal_accepted eq_refl)).
  - reflexivity.
  - reflexivity.
Defined.

(** X6, the witness: a word that is no timestamp, and a Unix time stamp. *)
Lemma bad_timestamp_rejected_witness :
  analyze_anomaly (B := Fixture.reference) (Fixture.answering None)
    (Fixture.post (Fixture.literal_with "detected_at" (VStr "yesterday")))
  = ([], validation_error
           (ValueError "Invalid isoformat string: 'yesterday'"))
  /\ analyze_anomaly (B := Fixture.reference) (Fixture.answering None)
       (Fixture.post (Fixture.literal_with "detected_at" (VInt 1734357930)))
     = ([], internal_server_error
              (AttributeError "'int' object has no attribute 'replace'")).
Proof.
  split.
  - apply (proj1 (bad_timestamp_rejected (B := Fixture.reference) (Fixture.answering None)
                    (Fixture.post (Fixture.literal_with "detected_at"
                                     (VStr "yesterday")))
                    (dict_set "detected_at" (VStr "yesterday") Fixture.literal_fields)
                    (VStr "yesterday")
                    ltac:(discriminate) eq_refl ltac:(required_by_lookup) eq_refl)
                 "yesterday").
    + reflexivity.
    + reflexivity.
  - apply (proj2 (bad_timestamp_rejected (B := Fixture.reference) (Fixture.answering None)
                    (Fixture.post (Fixture.literal_with "detected_at" (VInt 1734357930)))
                    (dict_set "detected_at" (VInt 1734357930) Fixture.literal_fields)
                    (VInt 1734357930)
                    ltac:(discriminate) eq_refl ltac:(required_by_lookup) eq_refl)).
    + reflexivity.
    + reflexivity.
Defined.

(** X7, the witness: an array that lists the ten names, and the string
    ["anomaly_id"]. *)
Lemma non_object_body_never_analyzed_witness :
  fst (analyze_anomaly (B := Fixture.reference) (Fixture.answering None)
         (Fixture.post (strs required_fields))) = []
  /\ fst (analyze_anomaly (B := Fixture.reference) (Fixture.answering None)
            (Fixture.post (VStr "anomaly_id"))) = [].
Proof.
  split.
  - apply (non_object_body_never_analyzed (B := Fixture.reference) (Fixture.answering None)
             (Fixture.post (strs required_fields))).
    + discriminate.
    + reflexivity.
    + discriminate.
  - apply (non_object_body_never_analyzed (B := Fixture.reference) (Fixture.answering None)
             (Fixture.post (VStr "anomaly_id"))).
    + discriminate.
    + reflexivity.
    + discriminate.
Defined.

(** The two bodies of the X7 witness, evaluated: the array of names is
    answered 500, the string 400 with nine names missing. *)
Example non_object_bodies :
  status (snd (analyze_anomaly (B := Fixture.reference) (Fixture.answering None)
                 (Fixture.post (strs required_fields)))) = 500%Z
  /\ snd (analyze_anomaly (B := Fixture.reference) (Fixture.answering None)
            (Fixture.post (VStr "anomaly_id")))
     = missing_required (tl required_fields).
Proof. split; reflexivity. Qed.

(* ================================================================= *)
(** ** Timestamps and enumerations *)

Lemma str_app_assoc (a b c : string) : ((a ++ b) ++ c = a ++ (b ++ c))%string.
Proof. induction a as [|x a IH]; simpl; [reflexivity | now rewrite IH]. Qed.

Lemma str_replace1_app (old : ascii) (new s t : string) :
  str_replace1 old new (s ++ t) = str_replace1 old new s ++ str_replace1 old new t.
Proof.
  induction s as [|c s IH]; simpl; [reflexivity|].
  destruct (Ascii.eqb c old); rewrite IH; [now rewrite str_app_assoc | reflexivity].
Qed.

Lemma str_replace1_no_Z (text : string) :
  str_in "Z" (str_replace1 "Z"%char "+00:00" text) = false.
Proof.
  induction text as [|c text IH]; [reflexivity|].
  cbn [str_replace1]. destruct (Ascii.eqb c "Z"%char) eqn:E.
  - cbn. exact IH.
  - cbn [str_in String.prefix]. rewrite IH.
    destruct (Ascii.ascii_dec "Z"%char c) as [<-|]; [discriminate E | reflexivity].
Qed.

Section Timestamps.
Context {B : Builtins}.

(** X8: the handler rewrites every capital [Z] of [detected_at] before
    parsing, so the text handed to [fromisoformat] never contains one, and a
    request whose timestamp ends in [Z] is constructed exactly as the same
    request with that [Z] written [+00:00]: same [Anomaly], or same
    exception. *)
Theorem Z_suffix_is_utc_offset (d : list (string * value)) (s : string) :
  construct_anomaly (VDict (dict_set "detected_at" (VStr (s ++ "Z")) d))
  = construct_anomaly (VDict (dict_set "detected_at" (VStr (s ++ "+00:00")) d))
  /\ (forall raw text, replace_Z raw = Ok text -> str_in "Z" text = false).
Proof.
  split.
  - unfold construct_anomaly. rewrite !get_dict. unfold getitem, get_or.
    rewrite !dict_lookup_set_same.
    rewrite !(dict_lookup_set_other "detected_at") by discriminate.
    cbn [bind replace_Z]. rewrite !str_replace1_app. reflexivity.
  - intros raw text H. destruct (replace_Z_Ok raw text H) as (s' & _ & ->).
    apply str_replace1_no_Z.
Qed.

(** X9: calling an enumeration returns a member exactly for the text that
    is that member's value; any other text, text in another letter case,
    and every object that is not text are refused. *)
Theorem Enum_call_iff :
  (forall v m, AnomalyType_call v = Ok m <-> v = VStr (AnomalyType_value m))
  /\ (forall v m, Severity_call v = Ok m <-> v = VStr (Severity_value m)).
Proof.
  split; intros v m; split.
  - destruct v as [| | | |s| | |]; try discriminate.
    unfold AnomalyType_call, Enum_call. cbn.
    repeat match goal with
    | |- context [String.eqb s ?x] =>
        destruct (String.eqb_spec s x) as [->|_]; [intros [= <-]; reflexivity|]
    end.
    discriminate.
  - intros ->. apply AnomalyType_call_value.
  - destruct v as [| | | |s| | |]; try discriminate.
    unfold Severity_call, Enum_call. cbn.
    repeat match goal with
    | |- context [String.eqb s ?x] =>
        destruct (String.eqb_spec s x) as [->|_]; [intros [= <-]; reflexivity|]
    end.
    discriminate.
  - intros ->. apply Severity_call_value.
Qed.

End Timestamps.

(** The two spellings of X8 on the literal request, and X9 on upper case:
    ["HIGH"] is no severity. *)
Example Z_and_case :
  construct_anomaly (B := Fixture.reference)
    (Fixture.literal_with "detected_at" (VStr "2024-12-16T14:05:30+00:00"))
  = Ok Fixture.literal_anomaly
  /\ construct_anomaly (B := Fixture.reference) Fixture.literal = Ok Fixture.literal_anomaly
  /\ Severity_call (B := Fixture.reference) (VStr "HIGH")
     = Raise (ValueError "'HIGH' is not a valid Severity").
Proof. repeat split. Qed.

(* ================================================================= *)
(** ** Serialization of the models *)

Section Serialization.
Context {B : Builtins}.

Lemma mapM_isoformat (tw : list (string * value)) :
  (exists out, mapM (fun kv => s <- call_isoformat (snd kv) ;; Ok (fst kv, VStr s)) tw = Ok out)
  <-> forallb (fun kv => is_datetime (snd kv)) tw = true.
Proof.
  induction tw as [|[k v] tw IH]; cbn [mapM forallb snd fst].
  - split; eauto.
  - destruct v; cbn [call_isoformat is_datetime bind andb];
      try (split; [intros (out & H); discriminate H | discriminate]).
    rewrite <- IH. split.
    + intros (out & H).
      destruct (mapM _ tw) as [ys|]; cbn [bind] in H; [eauto | discriminate].
    + intros (out & ->). cbn [bind]. eauto.
Qed.

(** X10: [Anomaly.to_dict] returns exactly when [time_window] is a dict all
    of whose values are [datetime] objects (the empty one included);
    otherwise it raises. *)
Theorem to_dict_succeeds_iff (a : Anomaly.t) :
  (exists v, Anomaly.to_dict a = Ok v)
  <-> exists tw, Anomaly.time_window a = VDict tw
                 /\ forallb (fun kv => is_datetime (snd kv)) tw = true.
Proof.
  unfold Anomaly.to_dict, Anomaly.time_window_to_dict. split.
  - intros (v & H).
    destruct (Anomaly.time_window a) as [| | | | | |tw|]; try discriminate H.
    exists tw. split; [reflexivity|]. apply mapM_isoformat.
    cbn [items bind] in H.
    destruct (mapM _ tw) as [out|]; [eauto | discriminate H].
  - intros (tw & -> & H). apply mapM_isoformat in H. destruct H as (out & H).
    cbn [items bind]. rewrite H. cbn [bind]. eauto.
Qed.

(** X11: the dictionary [Anomaly.to_dict] returns has the fifteen dataclass
    fields as its keys, in declaration order. Every column of
    [ANOMALY_TABLE_SCHEMA] is among them, and [time_window] is the only key
    for which the schema has no column. *)
Theorem to_dict_keys (a : Anomaly.t) (v : value) :
  Anomaly.to_dict a = Ok v ->
  exists d,
    v = VDict d
    /\ map fst d = map fst Anomaly.fields
    /\ (forall c, In c ANOMALY_TABLE_SCHEMA -> dict_has d (name c) = true)
    /\ (forall k, dict_has d k = true ->
                  k = "time_window" \/ In k (map name ANOMALY_TABLE_SCHEMA)).
Proof.
  unfold Anomaly.to_dict.
  destruct (Anomaly.time_window_to_dict (Anomaly.time_window a)) as [tw|];
    cbn [bind]; [|discriminate].
  intros [= <-]. eexists. split; [reflexivity|]. split; [reflexivity|]. split.
  - intros c Hc. cbn in Hc.
    repeat (destruct Hc as [<- | Hc]; [reflexivity|]). destruct Hc.
  - intros k. unfold dict_has. cbn [dict_lookup].
    repeat match goal with
    | |- context [String.eqb k ?x] =>
        destruct (String.eqb_spec k x) as [->|_]; [intros _; cbn; tauto|]
    end.
    discriminate.
Qed.

(** X12: [AnomalyAnalysis.to_dict] raises exactly when serializing the
    wrapped [Anomaly] raises, with the same exception. When it returns, the
    [anomaly] entry is the [Anomaly]'s own dictionary, and every
    recommendation has a [cost_impact] entry, which is null when the
    recommendation has none. *)
Theorem analysis_to_dict_wraps_anomaly (analysis : AnomalyAnalysis.t) :
  (forall e, AnomalyAnalysis.to_dict analysis = Raise e
             <-> Anomaly.to_dict (AnomalyAnalysis.anomaly analysis) = Raise e)
  /\ (forall d,
         AnomalyAnalysis.to_dict analysis = Ok (VDict d) ->
         exists ad recs,
           Anomaly.to_dict (AnomalyAnalysis.anomaly analysis) = Ok ad
           /\ dict_lookup "anomaly" d = Some ad
           /\ dict_lookup "recommendations" d = Some (VList recs)
           /\ Forall2 (fun rec v =>
                         exists rd, v = VDict rd
                                    /\ dict_lookup "cost_impact" rd
                                       = Some (match Recommendation.cost_impact rec with
                                               | Some c => VStr c
                                               | None => VNone
                                               end))
                      (AnomalyAnalysis.recommendations analysis) recs).
Proof.
  unfold AnomalyAnalysis.to_dict.
  destruct (Anomaly.to_dict (AnomalyAnalysis.anomaly analysis)) as [ad|e0]; cbn [bind].
  - split; [intros e; split; discriminate|].
    intros d H. exists ad. eexists. split; [reflexivity|].
    destruct (AnomalyAnalysis.summary analysis) as [s|];
      cbn in H; injection H as <-; cbn [dict_lookup String.eqb Ascii.eqb Bool.eqb];
      (split; [reflexivity|]); (split; [reflexivity|]);
      induction (AnomalyAnalysis.recommendations analysis) as [|r l IH];
      cbn [map]; constructor; eauto.
  - split; [intros e; split; intros [= ->]; reflexivity | discriminate].
Qed.

(** X13: the success envelope has exactly the eight keys of
    [envelope_keys], followed by [human_readable_summary] when the analysis
    has a summary; its [root_cause] object has exactly four keys and each
    recommendation exactly seven. What [AnomalyAnalysis.to_dict] also
    serializes ([correlation_data], [cost_impact], the three narrative
    strings, the anomaly itself) is never part of the response. *)
Theorem response_data_keys (analysis : AnomalyAnalysis.t) :
  map fst (response_data analysis)
  = (envelope_keys ++ match AnomalyAnalysis.summary analysis with
                      | Some _ => ["human_readable_summary"]
                      | None => []
                      end)%list
  /\ (exists rc, dict_lookup "root_cause" (response_data analysis) = Some (VDict rc)
                 /\ map fst rc = root_cause_keys)
  /\ (exists recs, dict_lookup "recommendations" (response_data analysis) = Some (VList recs)
                   /\ List.length recs = List.length (AnomalyAnalysis.recommendations analysis)
                   /\ Forall (fun v => exists rd, v = VDict rd
                                                  /\ map fst rd = recommendation_keys) recs).
Proof.
  unfold response_data.
  destruct (AnomalyAnalysis.summary analysis) as [s|]; cbn; (split; [reflexivity|]);
    (split; [eexists; split; reflexivity|]);
    eexists; (split; [reflexivity|]); (split; [apply length_map|]);
    induction (AnomalyAnalysis.recommendations analysis) as [|r l IH];
    cbn [map]; constructor; eauto.
Qed.

End Serialization.

(** X10 at two samples: a window of [datetime] objects serializes, the
    window of texts that the handler stores does not. *)
Example to_dict_windows :
  (exists v, Anomaly.to_dict (B := Fixture.reference) Samples.windowed_anomaly = Ok v)
  /\ ~ (exists v a,
           construct_anomaly (B := Fixture.reference)
             (Fixture.literal_with "time_window"
                (VDict [ ("start", VStr "2024-12-16T14:00:00Z") ])) = Ok a
           /\ Anomaly.to_dict (B := Fixture.reference) a = Ok v).
Proof.
  split.
  - eexists. reflexivity.
  - intros (v & a & Hc & Hd). injection Hc as <-. discriminate Hd.
Qed.

(** X11, the witness: an [Anomaly] with a two-entry window. *)
Lemma to_dict_keys_witness :
  exists d,
    VDict
      [ ("anomaly_id", VStr "anom_1"); ("detected_at", VStr "2024-12-16T14:05:30+00:00");
        ("metric_name", VStr "error_rate"); ("metric_type", VStr "error_rate");
        ("current_value", VFloat 15.5%float); ("baseline_value", VFloat 2.3%float);
        ("deviation_sigma", VFloat 5.2%float); ("deviation_percentage", VFloat 574.0%float);
        ("anomaly_type", VStr "stability"); ("severity", VStr "high");
        ("confidence", VFloat 0.8%float); ("affected_resources", VList []);
        ("time_window", VDict [ ("start", VStr "2024-12-16T14:00:00");
                                ("end", VStr "2024-12-16T14:10:00") ]);
        ("related_metrics", VDict []); ("metadata", VDict []) ] = VDict d
    /\ map fst d = map fst Anomaly.fields
    /\ (forall c, In c ANOMALY_TABLE_SCHEMA -> dict_has d (name c) = true)
    /\ (forall k, dict_has d k = true ->
                  k = "time_window" \/ In k (map name ANOMALY_TABLE_SCHEMA)).
Proof.
  apply (to_dict_keys (B := Fixture.reference) Samples.windowed_anomaly).
  reflexivity.
Defined.

(** X12, the witness: an analysis of the literal anomaly with one
    recommendation that has no cost impact. *)
Lemma analysis_to_dict_wraps_anomaly_witness :
  exists d ad recs,
    AnomalyAnalysis.to_dict (B := Fixture.reference) Samples.analysis_with_recommendation
      = Ok (VDict d)
    /\ Anomaly.to_dict (B := Fixture.reference) Fixture.literal_anomaly = Ok ad
    /\ dict_lookup "anomaly" d = Some ad
    /\ dict_lookup "recommendations" d = Some (VList recs)
    /\ Forall2 (fun rec v =>
                  exists rd, v = VDict rd
                             /\ dict_lookup "cost_impact" rd
                                = Some (match Recommendation.cost_impact rec with
                                        | Some c => VStr c
                                        | None => VNone
                                        end))
               [Samples.sample_recommendation] recs.
Proof.
  eexists.
  destruct (proj2 (analysis_to_dict_wraps_anomaly (B := Fixture.reference)
                     Samples.analysis_with_recommendation) _ eq_refl)
    as (ad & recs & H1 & H2 & H3 & H4).
  exists ad, recs. repeat split; assumption.
Defined.

(* ================================================================= *)
(** ** The plain-language report *)

Import Report.

Lemma rstrip_app_nl (s : string) : rstrip (s ++ nl) = rstrip s.
Proof.
  induction s as [|c s IH]; [reflexivity|].
  cbn [append rstrip]. now rewrite IH.
Qed.

Lemma rstrip_snoc (s : string) (c : ascii) :
  isspace c = false -> rstrip (s ++ String c "") = s ++ String c "".
Proof.
  intros Hc. induction s as [|x s IH]; cbn [append rstrip].
  - now rewrite Hc.
  - rewrite IH. destruct s; reflexivity.
Qed.

Section PlainLanguageReport.
Context {F : Formatting}.

(** X14: the report is the fixed text "Summary not available" exactly when
    the analysis has no summary. Otherwise it is the template with its first
    and last line feed removed and nothing else: it starts with the title,
    carries the five summary texts unchanged (leading or trailing blanks
    included) under their headings, and ends with the confidence as a
    percentage. *)
Theorem plain_language_report (self : AnomalyAnalysis.t) :
  (get_plain_language_report self = "Summary not available"
   <-> AnomalyAnalysis.summary self = None)
  /\ (forall s,
         AnomalyAnalysis.summary self = Some s ->
         get_plain_language_report self
         = "ANOMALY ANALYSIS REPORT" ++ nl
           ++ str_mul "=" 80 ++ nl
           ++ nl
           ++ "WHAT HAPPENED:" ++ nl
           ++ HumanReadableSummary.what_happened s ++ nl
           ++ nl
           ++ "WHY IT HAPPENED:" ++ nl
           ++ HumanReadableSummary.why_it_happened s ++ nl
           ++ nl
           ++ "WHAT IS THE IMPACT:" ++ nl
           ++ HumanReadableSummary.what_is_the_impact s ++ nl
           ++ nl
           ++ "WHAT IMPROVEMENTS CAN BE MADE:" ++ nl
           ++ HumanReadableSummary.what_improvements_can_be_made s ++ nl
           ++ nl
           ++ "ESTIMATED BENEFIT IF IMPLEMENTED:" ++ nl
           ++ HumanReadableSummary.estimated_benefit_if_implemented s ++ nl
           ++ nl
           ++ str_mul "=" 80 ++ nl
           ++ "Analysis completed at: "
           ++ strftime (AnomalyAnalysis.analyzed_at self) "%Y-%m-%d %H:%M:%S UTC" ++ nl
           ++ "Confidence level: "
           ++ format_f0 (PrimFloat.mul (RootCause.confidence (AnomalyAnalysis.root_cause self))
                                       100%float)
           ++ "%").
Proof.
  assert (forall s,
             AnomalyAnalysis.summary self = Some s ->
             get_plain_language_report self
             = "ANOMALY ANALYSIS REPORT" ++ nl
               ++ str_mul "=" 80 ++ nl
               ++ nl
               ++ "WHAT HAPPENED:" ++ nl
               ++ HumanReadableSummary.what_happened s ++ nl
               ++ nl
               ++ "WHY IT HAPPENED:" ++ nl
               ++ HumanReadableSummary.why_it_happened s ++ nl
               ++ nl
               ++ "WHAT IS THE IMPACT:" ++ nl
               ++ HumanReadableSummary.what_is_the_impact s ++ nl
               ++ nl
               ++ "WHAT IMPROVEMENTS CAN BE MADE:" ++ nl
               ++ HumanReadableSummary.what_improvements_can_be_made s ++ nl
               ++ nl
               ++ "ESTIMATED BENEFIT IF IMPLEMENTED:" ++ nl
               ++ HumanReadableSummary.estimated_benefit_if_implemented s ++ nl
               ++ nl
               ++ str_mul "=" 80 ++ nl
               ++ "Analysis completed at: "
               ++ strftime (AnomalyAnalysis.analyzed_at self) "%Y-%m-%d %H:%M:%S UTC" ++ nl
               ++ "Confidence level: "
               ++ format_f0 (PrimFloat.mul (RootCause.confidence (AnomalyAnalysis.root_cause self))
                                           100%float)
               ++ "%") as Htext.
  { intros s Hs. unfold get_plain_language_report. rewrite Hs.
    unfold strip, report_template, format_percent0.
    match goal with
    | |- rstrip (lstrip (nl ++ ?rest)) = _ => change (lstrip (nl ++ rest)) with rest
    end.
    match goal with
    | |- _ = ?rhs =>
        transitivity (rstrip (rhs ++ nl));
          [f_equal; rewrite !str_app_assoc; reflexivity|]
    end.
    rewrite rstrip_app_nl.
    rewrite <- !str_app_assoc. rewrite rstrip_snoc by reflexivity. reflexivity. }
  split; [|exact Htext].
  split.
  - intros H. destruct (AnomalyAnalysis.summary self) as [s|] eqn:Hs; [|reflexivity].
    rewrite (Htext s eq_refl) in H. discriminate H.
  - intros Hs. unfold get_plain_language_report. now rewrite Hs.
Qed.

End PlainLanguageReport.

(** X14, the witness: the report of a sample analysis, whose confidence
    [0.9] is printed [90%]. *)
Lemma plain_language_report_witness :
  get_plain_language_report (F := Samples.formatting) Samples.analysis_with_recommendation
  = "ANOMALY ANALYSIS REPORT" ++ nl
    ++ str_mul "=" 80 ++ nl
    ++ nl
    ++ "WHAT HAPPENED:" ++ nl
    ++ "Errors rose." ++ nl
    ++ nl
    ++ "WHY IT HAPPENED:" ++ nl
    ++ "A deploy." ++ nl
    ++ nl
    ++ "WHAT IS THE IMPACT:" ++ nl
    ++ "Checkout fails." ++ nl
    ++ nl
    ++ "WHAT IMPROVEMENTS CAN BE MADE:" ++ nl
    ++ "Roll back." ++ nl
    ++ nl
    ++ "ESTIMATED BENEFIT IF IMPLEMENTED:" ++ nl
    ++ "Fewer errors." ++ nl
    ++ nl
    ++ str_mul "=" 80 ++ nl
    ++ "Analysis completed at: 2024-12-16 14:05:35 UTC" ++ nl
    ++ "Confidence level: 90%".
Proof.
  exact (proj2 (plain_language_report (F := Samples.formatting)
                  Samples.analysis_with_recommendation)
               Samples.summary eq_refl).
Defined.

(* ================================================================= *)
(** ** The health endpoint *)

Import Health.

Section HealthProperties.
Context {B : Builtins}.
Variable env : Environment.

(** X15: [health] answers 200 exactly when [get_config], the agent
    constructor, [get_false_positive_rate] and the two configuration
    attributes all return and the three values they yield are JSON data.
    The body then reports [healthy] with those values and the first clock
    reading. The request plays no part. *)
Theorem health_healthy_iff (request : Request) :
  (status (health env request) = 200%Z
   <-> exists config analyzer fp_rate project_id dataset_id,
         get_config (collaborators env) = Ok config
         /\ AnomalyAnalyzerAgent (collaborators env) config = Ok analyzer
         /\ get_false_positive_rate env analyzer = Ok fp_rate
         /\ bigquery_project_id env config = Ok project_id
         /\ bigquery_dataset_id env config = Ok dataset_id
         /\ json_serializable project_id = true
         /\ json_serializable dataset_id = true
         /\ json_serializable fp_rate = true
         /\ health env request
            = mk_response
                (Dumps (VDict [ ("status", VStr "healthy");
                                ("service", VStr "anomaly-analyzer");
                                ("timestamp", VStr (isoformat (utcnow env 0) ++ "Z"));
                                ("project_id", project_id);
                                ("dataset_id", dataset_id);
                                ("false_positive_rate", fp_rate) ]))
                200 cors_headers).
Proof.
  unfold health, try_health. split.
  - destruct (get_config (collaborators env)) as [config|] eqn:H1;
      cbn [snd fst]; [|discriminate].
    destruct (AnomalyAnalyzerAgent (collaborators env) config) as [analyzer|] eqn:H2;
      cbn [snd fst]; [|discriminate].
    destruct (get_false_positive_rate env analyzer) as [fp_rate|] eqn:H3;
      cbn [snd fst]; [|discriminate].
    destruct (bigquery_project_id env config) as [project_id|] eqn:H4;
      cbn [bind]; [|discriminate].
    destruct (bigquery_dataset_id env config) as [dataset_id|] eqn:H5;
      cbn [bind]; [|discriminate].
    unfold respond, dumps. cbn [json_serializable forallb snd].
    destruct (json_serializable project_id) eqn:H6; cbn [andb bind]; [|discriminate].
    destruct (json_serializable dataset_id) eqn:H7; cbn [andb bind]; [|discriminate].
    destruct (json_serializable fp_rate) eqn:H8; cbn [andb bind]; [|discriminate].
    intros _. exists config, analyzer, fp_rate, project_id, dataset_id.
    repeat split; assumption.
  - intros (config & analyzer & fp_rate & project_id & dataset_id
            & -> & -> & -> & -> & -> & Hp & Hd & Hf & _).
    cbn [snd fst bind]. unfold respond, dumps. cbn [json_serializable forallb snd].
    rewrite Hp, Hd, Hf. reflexivity.
Qed.

(** X16: [health] never answers anything but 200 or 503, always with the
    two CORS/JSON headers. A 503 body reports [unhealthy] and carries as
    [error] the text of the first exception raised, whatever its class (a
    [ValueError] is not singled out and no [type] is given); it has none of
    the keys [project_id], [dataset_id], [false_positive_rate]. *)
Theorem health_degrades (request : Request) :
  headers (health env request) = cors_headers
  /\ (status (health env request) = 200%Z \/ status (health env request) = 503%Z)
  /\ (status (health env request) = 503%Z ->
      exists e,
        snd (try_health env) = Raise e
        /\ envelope_field "status" (health env request) = Some (VStr "unhealthy")
        /\ envelope_field "service" (health env request) = Some (VStr "anomaly-analyzer")
        /\ envelope_field "error" (health env request) = Some (VStr (exn_str e))
        /\ envelope_field "type" (health env request) = None
        /\ envelope_field "project_id" (health env request) = None
        /\ envelope_field "dataset_id" (health env request) = None
        /\ envelope_field "false_positive_rate" (health env request) = None)
  /\ (forall e, get_config (collaborators env) = Raise e ->
                health env request
                = mk_response
                    (Dumps (VDict [ ("status", VStr "unhealthy");
                                    ("service", VStr "anomaly-analyzer");
                                    ("error", VStr (exn_str e));
                                    ("timestamp", VStr (isoformat (utcnow env 0) ++ "Z")) ]))
                    503 cors_headers).
Proof.
  assert (forall r : result Response,
             (forall x, r = Ok x -> status x = 200%Z /\ headers x = cors_headers) ->
             let h := match r with
                      | Ok response => response
                      | Raise e =>
                          mk_response
                            (Dumps (VDict [ ("status", VStr "unhealthy");
                                            ("service", VStr "anomaly-analyzer");
                                            ("error", VStr (exn_str e));
                                            ("timestamp",
                                             VStr (isoformat (utcnow env (fst (try_health env)))
                                                   ++ "Z")) ]))
                            503 cors_headers
                      end in
             headers h = cors_headers
             /\ (status h = 200%Z \/ status h = 503%Z)
             /\ (status h = 503%Z ->
                 exists e, r = Raise e
                           /\ envelope_field "status" h = Some (VStr "unhealthy")
                           /\ envelope_field "service" h = Some (VStr "anomaly-analyzer")
                           /\ envelope_field "error" h = Some (VStr (exn_str e))
                           /\ envelope_field "type" h = None
                           /\ envelope_field "project_id" h = None
                           /\ envelope_field "dataset_id" h = None
                           /\ envelope_field "false_positive_rate" h = None)) as Hshape.
  { intros [x|e] Hx h; unfold h.
    - destruct (Hx x eq_refl) as (Hs & Hh). split; [exact Hh|]. split; [now left|].
      rewrite Hs. discriminate.
    - split; [reflexivity|]. split; [now right|]. intros _. exists e. repeat split. }
  assert (forall x, snd (try_health env) = Ok x ->
                    status x = 200%Z /\ headers x = cors_headers) as Hok.
  { unfold try_health. intros x.
    destruct (get_config (collaborators env)) as [config|]; cbn [snd]; [|discriminate].
    destruct (AnomalyAnalyzerAgent (collaborators env) config) as [analyzer|];
      cbn [snd]; [|discriminate].
    destruct (get_false_positive_rate env analyzer) as [fp_rate|]; cbn [snd]; [|discriminate].
    destruct (bigquery_project_id env config) as [project_id|]; cbn [bind]; [|discriminate].
    destruct (bigquery_dataset_id env config) as [dataset_id|]; cbn [bind]; [|discriminate].
    unfold respond. destruct (dumps _); cbn [bind]; [|discriminate].
    intros [= <-]. split; reflexivity. }
  destruct (Hshape (snd (try_health env)) Hok) as (H1 & H2 & H3).
  split; [exact H1|]. split; [exact H2|]. split; [exact H3|].
  intros e He. unfold health, try_health. rewrite He. reflexivity.
Qed.

End HealthProperties.

(** X16, the witness: the agent cannot be built. *)
Lemma health_degrades_witness :
  exists e,
    snd (try_health (B := Fixture.reference) Samples.unreachable_backend) = Raise e
    /\ envelope_field "status"
         (health (B := Fixture.reference) Samples.unreachable_backend (Fixture.post VNone))
       = Some (VStr "unhealthy")
    /\ envelope_field "error"
         (health (B := Fixture.reference) Samples.unreachable_backend (Fixture.post VNone))
       = Some (VStr (exn_str e)).
Proof.
  destruct (proj1 (proj2 (proj2 (health_degrades (B := Fixture.reference)
                                   Samples.unreachable_backend (Fixture.post VNone))))
                  eq_refl)
    as (e & H1 & H2 & _ & H3 & _).
  exists e. repeat split; assumption.
Defined.

(** The two sample environments of the health endpoint, evaluated. *)
Example health_samples :
  health (B := Fixture.reference) Samples.healthy (Fixture.post VNone)
  = mk_response
      (Dumps (VDict [ ("status", VStr "healthy");
                      ("service", VStr "anomaly-analyzer");
                      ("timestamp", VStr "2024-12-16T14:05:30Z");
                      ("project_id", VStr "my-project");
                      ("dataset_id", VStr "anomalies");
                      ("false_positive_rate", VFloat 0.05%float) ]))
      200 cors_headers
  /\ health (B := Fixture.reference) Samples.unreachable_backend (Fixture.post VNone)
     = mk_response
         (Dumps (VDict [ ("status", VStr "unhealthy");
                         ("service", VStr "anomaly-analyzer");
                         ("error", VStr "BigQuery unreachable");
                         ("timestamp", VStr "2024-12-16T14:05:30Z") ]))
         503 cors_headers.
Proof. split; reflexivity. Qed.

(* ================================================================= *)
(** ** Baseline rows *)

Section BaselineProperties.
Context {B : Builtins}.

(** X17: [to_bigquery_row] produces one cell per column of
    [BASELINE_TABLE_SCHEMA], under the column's name and in the schema's
    order, and the [notes] cell is always text (empty when there is no
    note), never null. Every cell holds an object of its column's type
    exactly when [calculated_at] is a [datetime] or already text; any other
    [calculated_at] is passed through unchanged. *)
Theorem baseline_row_conforms (self : Baseline.BaselineStats) :
  map fst (Baseline.to_bigquery_row self) = map name Baseline.BASELINE_TABLE_SCHEMA
  /\ (exists text, dict_lookup "notes" (Baseline.to_bigquery_row self) = Some (VStr text)
                   /\ (Baseline.notes self = None -> text = "")
                   /\ (forall s, Baseline.notes self = Some s -> text = s))
  /\ (Forall2 (fun c kv => name c = fst kv
                           /\ Baseline.cell_has_type (field_type c) (snd kv) = true)
              Baseline.BASELINE_TABLE_SCHEMA (Baseline.to_bigquery_row self)
      <-> is_datetime (Baseline.calculated_at self) || is_str (Baseline.calculated_at self)
          = true)
  /\ (is_datetime (Baseline.calculated_at self) = false ->
      dict_lookup "calculated_at" (Baseline.to_bigquery_row self)
      = Some (Baseline.calculated_at self)).
Proof.
  split; [reflexivity|]. split; [|split].
  - unfold Baseline.to_bigquery_row. cbn [dict_lookup String.eqb Ascii.eqb Bool.eqb].
    unfold Baseline.or_empty, Baseline.optional_str.
    destruct (Baseline.notes self) as [s|]; cbn [truthy].
    + destruct (String.eqb_spec s "") as [->|Hs]; cbn [negb].
      * exists "". split; [reflexivity|]. split; [discriminate | now intros s' [= <-]].
      * exists s. split; [reflexivity|]. split; [discriminate | now intros s' [= <-]].
    + exists "". split; [reflexivity|]. split; [reflexivity | discriminate].
  - assert (forall text,
               Baseline.cell_has_type "STRING"
                 (Baseline.or_empty (Baseline.optional_str text)) = true) as Hnotes.
    { intros [s|]; unfold Baseline.or_empty, Baseline.optional_str; cbn [truthy];
        [destruct (negb (String.eqb s "")); reflexivity | reflexivity]. }
    unfold Baseline.to_bigquery_row, Baseline.BASELINE_TABLE_SCHEMA. split.
    + intros H.
      do 9 (inversion H as [|? ? ? ? _ H']; subst; clear H; rename H' into H).
      inversion H as [|? ? ? ? [_ Hcell] _]; subst. clear H.
      cbn [field_type snd] in Hcell.
      destruct (Baseline.calculated_at self); cbn in Hcell |- *; auto; discriminate.
    + intros H.
      repeat (constructor; [split; [reflexivity|]; cbn [field_type snd];
                            try reflexivity; try apply Hnotes|]);
        try constructor.
      destruct (Baseline.calculated_at self); cbn in H |- *; auto; discriminate.
  - intros H. unfold Baseline.to_bigquery_row.
    cbn [dict_lookup String.eqb Ascii.eqb Bool.eqb].
    destruct (Baseline.calculated_at self); try reflexivity; discriminate.
Qed.

(** X18: [to_dict] returns only when [calculated_at] is a [datetime] and
    raises [AttributeError] otherwise, where [to_bigquery_row] passes the
    object through. When it returns, the dictionary has the row's keys and
    the row's cells under every key but [notes]: a missing note is null in
    the dictionary and the empty text in the row, so the two serializations
    coincide exactly when [calculated_at] is a [datetime] and there is a
    note. *)
Theorem baseline_to_dict_vs_row (self : Baseline.BaselineStats) :
  (forall t, Baseline.calculated_at self = VDatetime t ->
             exists d,
               Baseline.to_dict self = Ok d
               /\ map fst d = map fst (Baseline.to_bigquery_row self)
               /\ (forall k, k <> "notes" ->
                             dict_lookup k d = dict_lookup k (Baseline.to_bigquery_row self))
               /\ dict_lookup "notes" d = Some (Baseline.optional_str (Baseline.notes self)))
  /\ (is_datetime (Baseline.calculated_at self) = false ->
      Baseline.to_dict self
      = Raise (no_attribute (Baseline.calculated_at self) "isoformat"))
  /\ (Baseline.to_dict self = Ok (Baseline.to_bigquery_row self)
      <-> is_datetime (Baseline.calculated_at self) = true /\ Baseline.notes self <> None).
Proof.
  unfold Baseline.to_dict, Baseline.to_bigquery_row, Baseline.asdict.
  split; [|split].
  - intros t Ht. rewrite Ht. cbn [call_isoformat bind].
    eexists. split; [reflexivity|]. split; [reflexivity|]. split; [|reflexivity].
    intros k Hk. cbn [dict_set dict_lookup String.eqb Ascii.eqb Bool.eqb].
    repeat match goal with
    | |- context [String.eqb k ?x] =>
        destruct (String.eqb_spec k x) as [->|_]; [try reflexivity; congruence|]
    end.
    reflexivity.
  - intros H. destruct (Baseline.calculated_at self); try reflexivity; discriminate.
  - unfold Baseline.or_empty, Baseline.optional_str.
    destruct (Baseline.calculated_at self) as [| | | | | | |t];
      cbn [call_isoformat bind is_datetime];
      try (split; [discriminate | intros [H _]; discriminate H]).
    cbn [dict_set String.eqb Ascii.eqb Bool.eqb].
    destruct (Baseline.notes self) as [s|]; cbn [truthy]; split.
    + intros _. split; [reflexivity | discriminate].
    + intros _. destruct (String.eqb_spec s "") as [->|]; reflexivity.
    + intros H. discriminate H.
    + intros [_ H]. now contradiction H.
Qed.

End BaselineProperties.

(** X18, the witness: a baseline computed at midnight, without a note. *)
Lemma baseline_to_dict_vs_row_witness :
  exists d,
    Baseline.to_dict (B := Fixture.reference) Samples.baseline = Ok d
    /\ map fst d = map fst (Baseline.to_bigquery_row (B := Fixture.reference) Samples.baseline)
    /\ (forall k, k <> "notes" ->
                  dict_lookup k d
                  = dict_lookup k (Baseline.to_bigquery_row (B := Fixture.reference)
                                     Samples.baseline))
    /\ dict_lookup "notes" d = Some VNone.
Proof.
  exact (proj1 (baseline_to_dict_vs_row (B := Fixture.reference) Samples.baseline)
               (mk_datetime 2024 12 16 0 0 0 0 None) eq_refl).
Defined.

(** The sample baseline, evaluated: the note is null in the dictionary and
    empty in the row; the timestamp cell is the same text in both. *)
Example baseline_sample :
  dict_lookup "notes" (Baseline.to_bigquery_row (B := Fixture.reference) Samples.baseline)
  = Some (VStr "")
  /\ dict_lookup "calculated_at"
       (Baseline.to_bigquery_row (B := Fixture.reference) Samples.baseline)
     = Some (VStr "2024-12-16T00:00:00").
Proof. split; reflexivity. Qed.
